(** * The GitHub data-access layer of project-board

    A shallow embedding of [src/lib/github.ts] (cache, transport, query
    builders, normaliser, fetchers and the aggregator [fetchAllItems]) and of
    the configuration record it reads.

    Conventions of the embedding.
    - Payloads that the TypeScript code handles as [any] are JavaScript
      values ([JS.value]); property access, truthiness and the [TypeError]s
      of the host are written out.
    - Strings are byte strings. Numbers are integers (plus [NaN] and
      [Infinity]); fractional numbers do not occur in the code paths below.
    - Effects (the cache [Map], [Date.now()], [console.error], [fetch]) are
      threaded through a state-and-exception monad [M] over [World].
    - Host services that are not code of the repository (the network, the
      time a request takes, [new Date(v).getTime()], [atob]) are Section
      variables. *)

From stdpp Require Import gmap strings list pretty.
From Stdlib Require Import ZArith Lia Ascii String Permutation Sorted.

Local Set Warnings "-register-all".

Open Scope string_scope.
Open Scope Z_scope.

(** ** JavaScript values and the host operations the code uses *)

Module JS.

(** Numbers as the code meets them: integers, [NaN] (from [parseInt] and
    invalid dates) and [Infinity] (from [parseInt] of very long digit
    strings). *)
Inductive num : Type :=
| NaN
| Int (z : Z)
| Infinity.

Inductive value : Type :=
| VUndefined
| VNull
| VBool (b : bool)
| VNum (n : num)
| VStr (s : string)
| VArr (elems : list value)
| VObj (fields : list (string * value)).

(** Thrown objects: the constructor is the error class, the argument its
    [message]. *)
Inductive exn : Type :=
| Error (message : string)
| TypeError (message : string)
| SyntaxError (message : string)
| InvalidCharacterError (message : string).

Definition message_of (e : exn) : string :=
  match e with
  | Error m | TypeError m | SyntaxError m | InvalidCharacterError m => m
  end.

(** Pure computations that may throw. *)
Definition result (A : Type) : Type := exn + A.

Definition bindR {A B} (r : result A) (k : A -> result B) : result B :=
  match r with
  | inl e => inl e
  | inr a => k a
  end.

Notation "'let?' x ':=' r 'in' k" := (bindR r (fun x => k))
  (at level 10, x name, r at level 200, k at level 200).

(** The double quote character, and a string holding just it. *)
Definition dquote_char : ascii := ascii_of_nat 34.
Definition dquote : string := String dquote_char EmptyString.

(** [ToBoolean]. *)
Definition truthy (v : value) : bool :=
  match v with
  | VUndefined | VNull => false
  | VBool b => b
  | VNum NaN => false
  | VNum (Int z) => negb (z =? 0)
  | VNum Infinity => true
  | VStr s => negb (String.eqb s "")
  | VArr _ | VObj _ => true
  end.

(** [a || b]. *)
Definition or_else (a b : value) : value := if truthy a then a else b.

Definition lookup_field (k : string) (fields : list (string * value)) : value :=
  match List.find (fun p => String.eqb (fst p) k) fields with
  | Some p => snd p
  | None => VUndefined
  end.

(** [v.k] for the property names read by the code (none of them is
    [length], an index or a prototype member, so primitives and arrays
    answer [undefined]). *)
Definition getprop (v : value) (k : string) : result value :=
  match v with
  | VUndefined => inl (TypeError ("Cannot read properties of undefined (reading '" +:+ k +:+ "')"))
  | VNull => inl (TypeError ("Cannot read properties of null (reading '" +:+ k +:+ "')"))
  | VObj fields => inr (lookup_field k fields)
  | _ => inr VUndefined
  end.

(** [v?.k]. *)
Definition getprop_opt (v : value) (k : string) : value :=
  match v with
  | VObj fields => lookup_field k fields
  | _ => VUndefined
  end.

(** The receiver of [v.filter(..)] / [v.map(..)]: a value parsed from JSON
    has these methods exactly when it is an array. *)
Definition array_of (method : string) (v : value) : result (list value) :=
  match v with
  | VArr l => inr l
  | VUndefined => inl (TypeError ("Cannot read properties of undefined (reading '" +:+ method +:+ "')"))
  | VNull => inl (TypeError ("Cannot read properties of null (reading '" +:+ method +:+ "')"))
  | _ => inl (TypeError (method +:+ " is not a function"))
  end.

(** [Array.prototype.map] and [filter] with a callback that may throw:
    elements are visited left to right and the first exception escapes. *)
Fixpoint mapR {A B} (f : A -> result B) (l : list A) : result (list B) :=
  match l with
  | [] => inr []
  | x :: rest =>
      let? y := f x in
      let? ys := mapR f rest in
      inr (y :: ys)
  end.

Fixpoint filterR {A} (f : A -> result bool) (l : list A) : result (list A) :=
  match l with
  | [] => inr []
  | x :: rest =>
      let? keep := f x in
      let? ys := filterR f rest in
      inr (if keep then x :: ys else ys)
  end.

(** [String.prototype.toLowerCase] on byte strings: the ASCII letters. *)
Definition lower_char (c : ascii) : ascii :=
  let n := nat_of_ascii c in
  if ((65 <=? n) && (n <=? 90))%nat then ascii_of_nat (n + 32) else c.

Fixpoint toLowerCase (s : string) : string :=
  match s with
  | EmptyString => EmptyString
  | String c rest => String (lower_char c) (toLowerCase rest)
  end.

(** The last element of [s.split('/')]: the text after the last slash. *)
Fixpoint last_segment_from (acc s : string) : string :=
  match s with
  | EmptyString => acc
  | String c rest =>
      if Ascii.eqb c "/" then last_segment_from EmptyString rest
      else last_segment_from (acc +:+ String c EmptyString) rest
  end.

Definition last_segment (s : string) : string := last_segment_from EmptyString s.

(** [String.prototype.trim] on byte strings (ASCII white space). *)
Definition is_space (c : ascii) : bool :=
  let n := nat_of_ascii c in
  ((9 <=? n) && (n <=? 13) || (n =? 32))%nat.

Fixpoint trimStart (s : string) : string :=
  match s with
  | EmptyString => EmptyString
  | String c rest => if is_space c then trimStart rest else s
  end.

Definition trim (s : string) : string :=
  String.rev (trimStart (String.rev (trimStart s))).

(** Hexadecimal digits, for percent-encoding (upper case) and JSON escapes
    (lower case). *)
Definition hex_digit (upper : bool) (n : nat) : ascii :=
  if (n <? 10)%nat then ascii_of_nat (48 + n)
  else ascii_of_nat ((if upper then 55 else 87) + n).

Definition hex_byte (upper : bool) (c : ascii) : string :=
  let n := nat_of_ascii c in
  String (hex_digit upper (n / 16)) (String (hex_digit upper (n mod 16)) EmptyString).

Definition is_alnum (c : ascii) : bool :=
  let n := nat_of_ascii c in
  ((48 <=? n) && (n <=? 57) || (65 <=? n) && (n <=? 90) || (97 <=? n) && (n <=? 122))%nat.

(** The [application/x-www-form-urlencoded] serialiser behind
    [`${new URLSearchParams(..)}`]. *)
Definition form_encode_char (c : ascii) : string :=
  if is_alnum c || Ascii.eqb c "*" || Ascii.eqb c "-" || Ascii.eqb c "." || Ascii.eqb c "_"
  then String c EmptyString
  else if Ascii.eqb c " " then "+"
  else "%" +:+ hex_byte true c.

Fixpoint form_encode (s : string) : string :=
  match s with
  | EmptyString => EmptyString
  | String c rest => form_encode_char c +:+ form_encode rest
  end.

Definition URLSearchParams (init : list (string * string)) : string :=
  String.concat "&" (map (fun p => form_encode (fst p) +:+ "=" +:+ form_encode (snd p)) init).

(** [JSON.stringify]: [None] stands for the result [undefined]. *)
Definition json_escape_char (c : ascii) : string :=
  let n := nat_of_ascii c in
  if Ascii.eqb c dquote_char then String "\" dquote
  else if Ascii.eqb c "\" then "\\"
  else if (n =? 8)%nat then "\b"
  else if (n =? 9)%nat then "\t"
  else if (n =? 10)%nat then "\n"
  else if (n =? 12)%nat then "\f"
  else if (n =? 13)%nat then "\r"
  else if (n <? 32)%nat then "\u00" +:+ hex_byte false c
  else String c EmptyString.

Fixpoint json_escape (s : string) : string :=
  match s with
  | EmptyString => EmptyString
  | String c rest => json_escape_char c +:+ json_escape rest
  end.

Definition json_quote (s : string) : string := dquote +:+ json_escape s +:+ dquote.

Fixpoint JSON_stringify (v : value) : option string :=
  match v with
  | VUndefined => None
  | VNull => Some "null"
  | VBool b => Some (if b then "true" else "false")
  | VNum (Int z) => Some (pretty z)
  | VNum _ => Some "null"
  | VStr s => Some (json_quote s)
  | VArr elems =>
      Some ("[" +:+ String.concat ","
                     (map (fun x => default "null" (JSON_stringify x)) elems) +:+ "]")
  | VObj fields =>
      Some ("{" +:+ String.concat ","
                     (omap (fun p => match JSON_stringify (snd p) with
                                     | Some t => Some (json_quote (fst p) +:+ ":" +:+ t)
                                     | None => None
                                     end) fields) +:+ "}")
  end.

(** [`${v}`]: [ToString] (integers print in decimal). *)
Fixpoint ToString (v : value) : string :=
  match v with
  | VUndefined => "undefined"
  | VNull => "null"
  | VBool b => if b then "true" else "false"
  | VNum NaN => "NaN"
  | VNum (Int z) => pretty z
  | VNum Infinity => "Infinity"
  | VStr s => s
  | VArr elems =>
      String.concat ","
        (map (fun x => match x with
                       | VUndefined | VNull => ""
                       | _ => ToString x
                       end) elems)
  | VObj _ => "[object Object]"
  end.

(** [s.replace(/\D/g, '')]: keep the decimal digits. *)
Definition is_digit (c : ascii) : bool :=
  let n := nat_of_ascii c in ((48 <=? n) && (n <=? 57))%nat.

Fixpoint strip_non_digits (s : string) : string :=
  match s with
  | EmptyString => EmptyString
  | String c rest =>
      if is_digit c then String c (strip_non_digits rest) else strip_non_digits rest
  end.

(** The Number nearest to a non-negative integer (round to nearest, ties
    to even, 53 bits of precision; overflow gives [Infinity]). *)
Definition to_double (n : Z) : num :=
  if n <? 2 ^ 53 then Int n
  else
    let e := Z.log2 n - 52 in
    let q := n / 2 ^ e in
    let r := n mod 2 ^ e in
    let half := 2 ^ (e - 1) in
    let q' := if (half <? r) || ((r =? half) && Z.odd q) then q + 1 else q in
    if 2 ^ 1024 <=? q' * 2 ^ e then Infinity else Int (q' * 2 ^ e).

(** The mathematical value of a string of decimal digits. *)
Fixpoint decimal_value (acc : Z) (s : string) : Z :=
  match s with
  | EmptyString => acc
  | String c rest => decimal_value (10 * acc + Z.of_nat (nat_of_ascii c - 48)) rest
  end.

(** [parseInt] on a string of decimal digits (the only strings it is given
    here): [NaN] for the empty string. *)
Definition parseInt_digits (s : string) : num :=
  match s with
  | EmptyString => NaN
  | _ => to_double (decimal_value 0 s)
  end.

(** [a === b] against a string. *)
Definition strict_eq_string (v : value) (s : string) : bool :=
  match v with
  | VStr t => String.eqb t s
  | _ => false
  end.

End JS.

Import JS.

(** ** Configuration ([src/lib/types.ts], the fields this layer reads) *)

Record ProjectConfig : Type := mkConfig {
  organization : string;
  githubToken : option string;
  allowedRepositories : list string;
  maxItemsPerPage : Z;
  enableDiscussions : bool;
  excludedUsers : option (list string)
}.

(** ** Query builder *)

(** [/[.\-]/.test(repo)] *)
Definition needsQuotes (repo : string) : bool :=
  existsb (fun c => Ascii.eqb c "." || Ascii.eqb c "-") (list_ascii_of_string repo).

Definition buildRepoFilter (org : string) (allowedRepos : list string) : string :=
  if (List.length allowedRepos =? 0)%nat then "org:" +:+ org
  else
    String.concat " "
      (map (fun repo =>
              if needsQuotes repo
              then "repo:" +:+ dquote +:+ org +:+ "/" +:+ repo +:+ dquote
              else "repo:" +:+ org +:+ "/" +:+ repo)
           allowedRepos).

(** ** The world: cache, clock, console and network *)

(** [interface CacheEntry<T>] *)
Record CacheEntry : Type := mkEntry {
  data : value;
  timestamp : Z
}.

(** What [fetch] is called with, and what it resolves to. [body] is the
    outcome of [response.json()]: [None] when the payload is not JSON. *)
Record Request : Type := mkRequest {
  req_url : string;
  req_method : string;
  req_headers : list (string * string);
  req_body : option string
}.

Record Response : Type := mkResponse {
  status : Z;
  statusText : string;
  body : option value
}.

(** [response.ok] *)
Definition ok (r : Response) : bool := (200 <=? status r) && (status r <=? 299).

(** The mutable state of the process: the module-level [cache] map, the
    wall clock read by [Date.now()], the lines written by [console.error]
    and the requests handed to [fetch], oldest first. *)
Record World : Type := mkWorld {
  cache : gmap string CacheEntry;
  clock : Z;
  console : list string;
  sent : list Request
}.

(** The services of the host. [network n req] is the outcome of the
    [n]-th call of [fetch] (a rejection or a response), [latency n] the
    time it takes; [Date_getTime v] is [new Date(v).getTime()]: it throws
    when [v] is an object that cannot be converted to a primitive value,
    and [None] stands for [NaN] (an invalid date). *)
Record Host : Type := mkHost {
  network : nat -> Request -> result Response;
  latency : nat -> Z;
  Date_getTime : value -> result (option Z);
  atob : string -> result string
}.

(** Computations over the world that may throw. *)
Definition M (A : Type) : Type := World -> result A * World.

Definition ret {A} (a : A) : M A := fun w => (inr a, w).

Definition bind {A B} (m : M A) (k : A -> M B) : M B :=
  fun w =>
    match m w with
    | (inl e, w') => (inl e, w')
    | (inr a, w') => k a w'
    end.

Definition throw {A} (e : exn) : M A := fun w => (inl e, w).

Definition lift {A} (r : result A) : M A := fun w => (r, w).

(** [try { m } catch (e) { h e }] *)
Definition try_catch {A} (m : M A) (h : exn -> M A) : M A :=
  fun w =>
    match m w with
    | (inl e, w') => h e w'
    | (inr a, w') => (inr a, w')
    end.

Notation "'let*' x ':=' m 'in' k" := (bind m (fun x => k))
  (at level 10, x name, m at level 200, k at level 200).
Notation "m ';;' k" := (bind m (fun _ => k))
  (at level 100, k at level 200, right associativity).

Definition Date_now : M Z := fun w => (inr (clock w), w).

Definition console_error (line : string) : M unit :=
  fun w => (inr tt, mkWorld (cache w) (clock w) (console w ++ [line])%list (sent w)).

Definition cache_get (key : string) : M (option CacheEntry) :=
  fun w => (inr (cache w !! key), w).

Definition cache_delete (key : string) : M unit :=
  fun w => (inr tt, mkWorld (delete key (cache w)) (clock w) (console w) (sent w)).

Definition cache_set (key : string) (entry : CacheEntry) : M unit :=
  fun w => (inr tt, mkWorld (<[key := entry]> (cache w)) (clock w) (console w) (sent w)).

Definition GITHUB_API_BASE : string := "https://api.github.com".
Definition GITHUB_GRAPHQL_API : string := "https://api.github.com/graphql".
Definition CACHE_TTL : Z := 5 * 60 * 1000.

(** ** Cache *)

Definition getCached (key : string) : M value :=
  let* entry := cache_get key in
  match entry with
  | None => ret VNull
  | Some entry =>
      let* now := Date_now in
      if now - timestamp entry >? CACHE_TTL then
        cache_delete key ;;
        ret VNull
      else ret (data entry)
  end.

Definition setCache (key : string) (d : value) : M unit :=
  let* now := Date_now in
  cache_set key (mkEntry d now).

(** ** Transport *)

Section Transport.

Variable config : ProjectConfig.
Variable host : Host.

(** [await fetch(url, init)]: the request is recorded, the clock advances
    by the time the request takes, and the network answers. *)
Definition fetch (req : Request) : M Response :=
  fun w =>
    let n := List.length (sent w) in
    (network host n req,
     mkWorld (cache w) (clock w + latency host n) (console w) (sent w ++ [req])%list).

(** [await response.json()] *)
Definition response_json (r : Response) : M value :=
  match body r with
  | Some v => ret v
  | None => throw (SyntaxError "Unexpected token in JSON")
  end.

(** [if (config.githubToken) headers['Authorization'] = ...] *)
Definition authorization : list (string * string) :=
  match githubToken config with
  | Some token =>
      if String.eqb token "" then [] else [("Authorization", "Bearer " +:+ token)]
  | None => []
  end.

Definition githubFetch (endpoint : string) : M value :=
  let cacheKey := "rest:" +:+ endpoint in
  let* cached := getCached cacheKey in
  if truthy cached then ret cached
  else
    let headers :=
      ([("Accept", "application/vnd.github+json");
        ("X-GitHub-Api-Version", "2022-11-28")] ++ authorization)%list in
    let* response := fetch (mkRequest (GITHUB_API_BASE +:+ endpoint) "GET" headers None) in
    if negb (ok response) then
      console_error ("GitHub API error: " +:+ pretty (status response) +:+ " "
                     +:+ statusText response) ;;
      throw (Error ("GitHub API request failed: " +:+ statusText response))
    else
      let* d := response_json response in
      setCache cacheKey d ;;
      ret d.

(** [variables] is [None] when the optional argument is left out. *)
Definition graphqlCacheKey (query : string) (variables : option value) : string :=
  "graphql:" +:+ query +:+ ":"
  +:+ ToString (match JSON_stringify (or_else (default VUndefined variables) (VObj [])) with
                | Some s => VStr s
                | None => VUndefined
                end).

Definition githubGraphQL (query : string) (variables : option value) : M value :=
  let cacheKey := graphqlCacheKey query variables in
  let* cached := getCached cacheKey in
  if truthy cached then ret cached
  else
    let headers :=
      ([("Accept", "application/vnd.github+json");
        ("Content-Type", "application/json")] ++ authorization)%list in
    let payload :=
      JSON_stringify (VObj [("query", VStr query);
                            ("variables", default VUndefined variables)]) in
    let* response := fetch (mkRequest GITHUB_GRAPHQL_API "POST" headers payload) in
    if negb (ok response) then
      console_error ("GitHub GraphQL error: " +:+ pretty (status response) +:+ " "
                     +:+ statusText response) ;;
      throw (Error ("GitHub GraphQL request failed: " +:+ statusText response))
    else
      let* res := response_json response in
      let* errors := lift (getprop res "errors") in
      if truthy errors then
        console_error ("GraphQL errors: " +:+ ToString errors) ;;
        throw (Error ("GraphQL errors: "
                      +:+ default "undefined" (JSON_stringify errors)))
      else
        let* d := lift (getprop res "data") in
        setCache cacheKey d ;;
        ret d.

End Transport.

(** ** The canonical item ([interface GitHubItem])

    The shape is fixed by the code that builds the items; the leaves are
    whatever the payload held. *)

Inductive ItemType : Type := issue | pr | discussion.

Record User : Type := mkUser {
  user_login : value;
  user_avatar_url : value
}.

Record Label : Type := mkLabel {
  label_name : value;
  label_color : value
}.

Record GitHubItem : Type := mkItem {
  item_id : value;
  item_number : value;
  item_title : value;
  item_state : value;
  item_created_at : value;
  item_updated_at : value;
  item_html_url : value;
  item_user : User;
  item_labels : list Label;
  item_repository : value;
  item_type : ItemType
}.

(** [{ ...item, repository: repo }] *)
Definition with_repository (item : GitHubItem) (repo : value) : GitHubItem :=
  mkItem (item_id item) (item_number item) (item_title item) (item_state item)
         (item_created_at item) (item_updated_at item) (item_html_url item)
         (item_user item) (item_labels item) repo (item_type item).

(** [interface FilterOptions] *)
Inductive TypeFilter : Type := FIssue | FPr | FDiscussion | FAll.

Record FilterOptions : Type := mkOptions {
  opt_state : option string;
  opt_type : option TypeFilter;
  opt_repository : option string
}.

(** ** Normaliser *)

Definition transformLabel (label : value) : result Label :=
  match label with
  | VStr _ => inr (mkLabel label (VStr "000000"))
  | _ =>
      let? name := getprop label "name" in
      let? color := getprop label "color" in
      inr (mkLabel name color)
  end.

Definition transformGitHubItem (item : value) (type : ItemType) : result GitHubItem :=
  let? repository_url := getprop item "repository_url" in
  let? repoName :=
    if truthy repository_url then
      match repository_url with
      | VStr url => inr (VStr (last_segment url))
      | _ => inl (TypeError "item.repository_url.split is not a function")
      end
    else
      let? repository := getprop item "repository" in
      if truthy repository then getprop repository "name" else inr (VStr "")
  in
  let? id := getprop item "id" in
  let? number := getprop item "number" in
  let? title := getprop item "title" in
  let? state := getprop item "state" in
  let? created_at := getprop item "created_at" in
  let? updated_at := getprop item "updated_at" in
  let? html_url := getprop item "html_url" in
  let? user := getprop item "user" in
  let login := or_else (getprop_opt user "login") (VStr "unknown") in
  let avatar_url := or_else (getprop_opt user "avatar_url") (VStr "") in
  let? labels := getprop item "labels" in
  let? labelArray := array_of "map" (or_else labels (VArr [])) in
  let? labels' := mapR transformLabel labelArray in
  inr (mkItem id number title state created_at updated_at html_url
              (mkUser login avatar_url) labels' repoName type).

(** One node of the discussions query, mapped inline by
    [fetchDiscussions]. *)
Definition discussionId (id : value) : result value :=
  match id with
  | VStr s => inr (or_else (VNum (parseInt_digits (strip_non_digits s))) (VNum (Int 0)))
  | VUndefined => inl (TypeError "Cannot read properties of undefined (reading 'replace')")
  | VNull => inl (TypeError "Cannot read properties of null (reading 'replace')")
  | _ => inl (TypeError "disc.id.replace is not a function")
  end.

Definition transformDiscussion (repo : value) (disc : value) : result GitHubItem :=
  let? nodeId := getprop disc "id" in
  let? id := discussionId nodeId in
  let? number := getprop disc "number" in
  let? title := getprop disc "title" in
  let? closed := getprop disc "closed" in
  let state := VStr (if truthy closed then "closed" else "open") in
  let? createdAt := getprop disc "createdAt" in
  let? updatedAt := getprop disc "updatedAt" in
  let? url := getprop disc "url" in
  let? author := getprop disc "author" in
  let login := or_else (getprop_opt author "login") (VStr "unknown") in
  let avatar_url := or_else (getprop_opt author "avatarUrl") (VStr "") in
  let? labels := getprop disc "labels" in
  let? labelNodes := getprop labels "nodes" in
  let? labelArray := array_of "map" labelNodes in
  let? labels' :=
    mapR (fun label =>
            let? name := getprop label "name" in
            let? color := getprop label "color" in
            inr (mkLabel name color)) labelArray in
  inr (mkItem id number title state createdAt updatedAt url
              (mkUser login avatar_url) labels' repo discussion).

(** ** Fetchers *)

Section Fetchers.

Variable config : ProjectConfig.
Variable host : Host.

(** [item.user?.login?.toLowerCase()] *)
Definition username_of (item : GitHubItem) : result value :=
  match user_login (item_user item) with
  | VUndefined | VNull => inr VUndefined
  | VStr s => inr (VStr (toLowerCase s))
  | _ => inl (TypeError "item.user?.login?.toLowerCase is not a function")
  end.

Definition filterByUser (items : list GitHubItem) : result (list GitHubItem) :=
  match excludedUsers config with
  | None => inr items
  | Some excludedUsers =>
      if (List.length excludedUsers =? 0)%nat then inr items
      else
        filterR (fun item =>
                   let? username := username_of item in
                   inr (negb (existsb (fun excluded =>
                                         strict_eq_string username (toLowerCase excluded))
                                      excludedUsers)))
                items
  end.

(** [for (const repo of repos) { try { all.push(...body) } catch (e) { log } }] *)
Fixpoint forEachRepo {R} (body : R -> M (list GitHubItem)) (onError : R -> exn -> M unit)
    (repos : list R) (all : list GitHubItem) : M (list GitHubItem) :=
  match repos with
  | [] => ret all
  | repo :: rest =>
      let* all' :=
        try_catch (let* items := body repo in ret (all ++ items)%list)
                  (fun repoError => onError repo repoError ;; ret all) in
      forEachRepo body onError rest all'
  end.

Definition listParams (state : string) : string :=
  let stateParam := if String.eqb state "all" then "all" else state in
  URLSearchParams [("state", stateParam); ("per_page", "100");
                   ("sort", "updated"); ("direction", "desc")].

Definition searchParams (query : string) : string :=
  URLSearchParams [("q", query); ("per_page", pretty (maxItemsPerPage config));
                   ("sort", "updated"); ("order", "desc")].

Definition searchQuery (org : string) (allowedRepos : list string) (kind state : string)
    : string :=
  let repoFilter := buildRepoFilter org allowedRepos in
  let stateQuery := if String.eqb state "all" then "" else "is:" +:+ state in
  trim (repoFilter +:+ " is:" +:+ kind +:+ " " +:+ stateQuery).

(** The body of the inner [try] of [fetchIssues]. *)
Definition issuesOfRepo (org state repo : string) : M (list GitHubItem) :=
  let* issues :=
    githubFetch config host ("/repos/" +:+ org +:+ "/" +:+ repo +:+ "/issues?"
                             +:+ listParams state) in
  lift (let? issueArray := array_of "filter" issues in
        let? actualIssues :=
          filterR (fun i => let? pull_request := getprop i "pull_request" in
                            inr (negb (truthy pull_request))) issueArray in
        mapR (fun item => let? it := transformGitHubItem item issue in
                          inr (with_repository it (VStr repo))) actualIssues).

(** The body of the outer [try] of [fetchIssues]. *)
Definition fetchIssues_body (org state : string) (allowedRepos : list string)
    : M (list GitHubItem) :=
  if (0 <? List.length allowedRepos)%nat then
    let* allIssues :=
      forEachRepo (issuesOfRepo org state)
        (fun repo repoError =>
           console_error ("Error fetching issues from " +:+ org +:+ "/" +:+ repo +:+ ": "
                          +:+ message_of repoError))
        allowedRepos [] in
    lift (filterByUser allIssues)
  else
    let* res :=
      githubFetch config host
        ("/search/issues?" +:+ searchParams (searchQuery org allowedRepos "issue" state)) in
    let items := getprop_opt res "items" in
    if negb (truthy items) then ret []
    else
      let* issues := lift (let? itemArray := array_of "map" items in
                           mapR (fun item => transformGitHubItem item issue) itemArray) in
      lift (filterByUser issues).

Definition fetchIssues (org state : string) (allowedRepos : list string)
    : M (list GitHubItem) :=
  try_catch (fetchIssues_body org state allowedRepos)
            (fun error =>
               console_error ("Error fetching issues: " +:+ message_of error) ;;
               ret []).

Definition pullsOfRepo (org state repo : string) : M (list GitHubItem) :=
  let* prs :=
    githubFetch config host ("/repos/" +:+ org +:+ "/" +:+ repo +:+ "/pulls?"
                             +:+ listParams state) in
  lift (let? prArray := array_of "map" prs in
        mapR (fun item => let? it := transformGitHubItem item pr in
                          inr (with_repository it (VStr repo))) prArray).

Definition fetchPullRequests_body (org state : string) (allowedRepos : list string)
    : M (list GitHubItem) :=
  if (0 <? List.length allowedRepos)%nat then
    let* allPRs :=
      forEachRepo (pullsOfRepo org state)
        (fun repo repoError =>
           console_error ("Error fetching PRs from " +:+ org +:+ "/" +:+ repo +:+ ": "
                          +:+ message_of repoError))
        allowedRepos [] in
    lift (filterByUser allPRs)
  else
    let* res :=
      githubFetch config host
        ("/search/issues?" +:+ searchParams (searchQuery org allowedRepos "pr" state)) in
    let items := getprop_opt res "items" in
    if negb (truthy items) then ret []
    else
      let* prs := lift (let? itemArray := array_of "map" items in
                        mapR (fun item => transformGitHubItem item pr) itemArray) in
      lift (filterByUser prs).

Definition fetchPullRequests (org state : string) (allowedRepos : list string)
    : M (list GitHubItem) :=
  try_catch (fetchPullRequests_body org state allowedRepos)
            (fun error =>
               console_error ("Error fetching pull requests: " +:+ message_of error) ;;
               ret []).

(** The GraphQL document of [fetchDiscussions]. *)
Definition DISCUSSIONS_QUERY : string := "
          query($owner: String!, $repo: String!) {
            repository(owner: $owner, name: $repo) {
              discussions(first: 20, orderBy: {field: UPDATED_AT, direction: DESC}) {
                nodes {
                  id
                  number
                  title
                  url
                  createdAt
                  updatedAt
                  author {
                    login
                    avatarUrl
                  }
                  labels(first: 10) {
                    nodes {
                      name
                      color
                    }
                  }
                  closed
                  closedAt
                }
              }
            }
          }
        ".

Definition getOrgRepositories_body (org : string) : M (list value) :=
  let params :=
    URLSearchParams [("q", "org:" +:+ org); ("per_page", "100");
                     ("sort", "updated"); ("order", "desc")] in
  let* res := githubFetch config host ("/search/repositories?" +:+ params) in
  let items := getprop_opt res "items" in
  if negb (truthy items) then ret []
  else
    let* allRepos :=
      lift (let? itemArray := array_of "map" items in
            let? names := mapR (fun repo => getprop repo "name") itemArray in
            inr (List.filter truthy names)) in
    if (0 <? List.length (allowedRepositories config))%nat then
      ret (List.filter
             (fun repo => existsb (strict_eq_string repo) (allowedRepositories config))
             allRepos)
    else ret allRepos.

Definition getOrgRepositories (org : string) : M (list value) :=
  try_catch (getOrgRepositories_body org)
            (fun error =>
               console_error ("Error fetching repositories: " +:+ message_of error) ;;
               ret []).

(** The body of the inner [try] of [fetchDiscussions]. *)
Definition discussionsOfRepo (org : string) (repo : value) : M (list GitHubItem) :=
  let* res :=
    githubGraphQL config host DISCUSSIONS_QUERY
      (Some (VObj [("owner", VStr org); ("repo", repo)])) in
  let nodes :=
    getprop_opt (getprop_opt (getprop_opt res "repository") "discussions") "nodes" in
  if truthy nodes then
    lift (let? nodeArray := array_of "map" nodes in
          mapR (transformDiscussion repo) nodeArray)
  else ret [].

Definition fetchDiscussions_body (org : string) (allowedRepos : list string)
    : M (list GitHubItem) :=
  let* reposToFetch :=
    if (0 <? List.length allowedRepos)%nat then ret (map VStr allowedRepos)
    else getOrgRepositories org in
  if (List.length reposToFetch =? 0)%nat then ret []
  else
    let* allDiscussions :=
      forEachRepo (discussionsOfRepo org)
        (fun repo repoError =>
           console_error ("Error fetching discussions for " +:+ ToString repo +:+ ": "
                          +:+ message_of repoError))
        reposToFetch [] in
    lift (filterByUser allDiscussions).

Definition fetchDiscussions (org : string) (allowedRepos : list string)
    : M (list GitHubItem) :=
  try_catch (fetchDiscussions_body org allowedRepos)
            (fun error =>
               console_error ("Error fetching discussions: " +:+ message_of error) ;;
               ret []).

(** ** Aggregator *)

(** [Array.prototype.sort(comparefn)]. The sort is stable, a comparator
    result of [NaN] ([None]) counts as [+0], and an exception thrown by the
    comparator ends the sort and escapes from it. For a comparator that is
    a consistent ordering of the elements the sorted array is unique; it
    is computed here by insertion from the right. For any other comparator
    (here: when some result is [NaN]) the order of the result is left to
    the implementation: the model then yields one rearrangement of the
    elements, and nothing but its being a rearrangement is to be read off
    it. *)
Section ArraySort.

Context {A : Type} (comparefn : A -> A -> result (option Z)).

Fixpoint sort_insert (x : A) (sorted : list A) : result (list A) :=
  match sorted with
  | [] => inr [x]
  | y :: rest =>
      let? order := comparefn x y in
      if default 0 order <=? 0 then inr (x :: sorted)
      else
        let? rest' := sort_insert x rest in
        inr (y :: rest')
  end.

Fixpoint Array_sort (l : list A) : result (list A) :=
  match l with
  | [] => inr []
  | x :: rest =>
      let? sorted := Array_sort rest in
      sort_insert x sorted
  end.

End ArraySort.

(** [new Date(item.updated_at).getTime()] *)
Definition updatedTime (item : GitHubItem) : result (option Z) :=
  Date_getTime host (item_updated_at item).

(** [(a, b) => new Date(b.updated_at).getTime() - new Date(a.updated_at).getTime()]:
    the date of [b] is built first; the difference is [NaN] when either
    date is invalid. *)
Definition byUpdatedDesc (a b : GitHubItem) : result (option Z) :=
  let? tb := updatedTime b in
  let? ta := updatedTime a in
  inr (match tb, ta with
       | Some tb, Some ta => Some (tb - ta)
       | _, _ => None
       end).

(** [fetchAllItems] up to, and without, the final sort: the concatenated
    and repository-filtered items. *)
Definition collectItems (org : string) (options : FilterOptions) : M (list GitHubItem) :=
  let state := default "open" (opt_state options) in
  let type := default FAll (opt_type options) in
  let repository := opt_repository options in
  let allowedRepos := allowedRepositories config in
  let items : list GitHubItem := [] in
  let* items :=
    match type with
    | FAll | FIssue =>
        let* issues := fetchIssues org state allowedRepos in
        ret (items ++ issues)%list
    | _ => ret items
    end in
  let* items :=
    match type with
    | FAll | FPr =>
        let* prs := fetchPullRequests org state allowedRepos in
        ret (items ++ prs)%list
    | _ => ret items
    end in
  let* items :=
    if match type with FAll | FDiscussion => true | _ => false end
       && enableDiscussions config
    then
      let* discussions := fetchDiscussions org allowedRepos in
      ret (items ++ discussions)%list
    else ret items in
  let filteredItems :=
    match repository with
    | Some r =>
        if negb (String.eqb r "") && negb (String.eqb r "all")
        then List.filter (fun item => strict_eq_string (item_repository item) r) items
        else items
    | None => items
    end in
  ret filteredItems.

(** There is no [try] around the body: what the sort throws escapes. *)
Definition fetchAllItems (org : string) (options : FilterOptions) : M (list GitHubItem) :=
  let* filteredItems := collectItems org options in
  lift (Array_sort byUpdatedDesc filteredItems).

(** ** Singular lookups *)

Definition fetchOrganization (org : string) : M value :=
  try_catch (githubFetch config host ("/orgs/" +:+ org))
            (fun error =>
               console_error ("Failed to fetch organization " +:+ org +:+ ": "
                              +:+ message_of error) ;;
               ret VNull).

(** [s.replace(/\n/g, '')] *)
Fixpoint remove_newlines (s : string) : string :=
  match s with
  | EmptyString => EmptyString
  | String c rest =>
      if (nat_of_ascii c =? 10)%nat then remove_newlines rest
      else String c (remove_newlines rest)
  end.

Definition fetchReadme_body (org repo : string) : M value :=
  let* response :=
    githubFetch config host ("/repos/" +:+ org +:+ "/" +:+ repo +:+ "/readme") in
  lift (let? encoding := getprop response "encoding" in
        let? content := getprop response "content" in
        if strict_eq_string encoding "base64" then
          match content with
          | VStr s => let? text := atob host (remove_newlines s) in inr (VStr text)
          | VUndefined =>
              inl (TypeError "Cannot read properties of undefined (reading 'replace')")
          | VNull => inl (TypeError "Cannot read properties of null (reading 'replace')")
          | _ => inl (TypeError "response.content.replace is not a function")
          end
        else inr content).

Definition fetchReadme (org repo : string) : M value :=
  try_catch (fetchReadme_body org repo)
            (fun error =>
               console_error ("Failed to fetch README for " +:+ org +:+ "/" +:+ repo
                              +:+ ": " +:+ message_of error) ;;
               ret VNull).

End Fetchers.

(** ** A concrete host and the shipped configuration

    Used to run the definitions above on concrete inputs. *)

Module Sample.

Definition digit (c : ascii) : option Z :=
  if is_digit c then Some (Z.of_nat (nat_of_ascii c) - 48) else None.

Definition digits2 (a b : ascii) : option Z :=
  match digit a, digit b with
  | Some x, Some y => Some (10 * x + y)
  | _, _ => None
  end.

Definition digits4 (a b c d : ascii) : option Z :=
  match digits2 a b, digits2 c d with
  | Some x, Some y => Some (100 * x + y)
  | _, _ => None
  end.

(** Days from 1970-01-01 to a date of the proleptic Gregorian calendar. *)
Definition days_from_civil (y m d : Z) : Z :=
  let y' := if m <=? 2 then y - 1 else y in
  let era := y' / 400 in
  let yoe := y' - era * 400 in
  let mp := (m + 9) mod 12 in
  let doy := (153 * mp + 2) / 5 + d - 1 in
  let doe := yoe * 365 + yoe / 4 - yoe / 100 + doy in
  era * 146097 + doe - 719468.

Definition days_in_month (y m : Z) : Z :=
  if m =? 2 then
    if ((y mod 4 =? 0) && negb (y mod 100 =? 0)) || (y mod 400 =? 0) then 29 else 28
  else if (m =? 4) || (m =? 6) || (m =? 9) || (m =? 11) then 30
  else 31.

Definition civil_ms (y m d hh mm ss : option Z) : option Z :=
  match y, m, d, hh, mm, ss with
  | Some y, Some m, Some d, Some hh, Some mm, Some ss =>
      if (1 <=? m) && (m <=? 12) && (1 <=? d) && (d <=? days_in_month y m)
         && (hh <=? 23) && (mm <=? 59) && (ss <=? 59)
      then Some ((((days_from_civil y m d * 24 + hh) * 60 + mm) * 60 + ss) * 1000)
      else None
  | _, _, _, _, _, _ => None
  end.

(** The two ISO-8601 forms that occur: [YYYY-MM-DD] and GitHub's
    [YYYY-MM-DDTHH:MM:SSZ], both UTC. *)
Definition isoTime (s : string) : option Z :=
  match list_ascii_of_string s with
  | [y1; y2; y3; y4; "-"; m1; m2; "-"; d1; d2]%char =>
      civil_ms (digits4 y1 y2 y3 y4) (digits2 m1 m2) (digits2 d1 d2)
               (Some 0) (Some 0) (Some 0)
  | [y1; y2; y3; y4; "-"; m1; m2; "-"; d1; d2; "T"; h1; h2; ":"; n1; n2; ":"; s1; s2; "Z"]%char =>
      civil_ms (digits4 y1 y2 y3 y4) (digits2 m1 m2) (digits2 d1 d2)
               (digits2 h1 h2) (digits2 n1 n2) (digits2 s1 s2)
  | _ => None
  end.

(** The string an array or object is converted to: an object parsed from
    JSON whose own [toString] member hides the inherited method has no
    primitive value, and the conversion throws. *)
Fixpoint primitiveText (v : value) : result string :=
  match v with
  | VArr elems =>
      let? parts :=
        (fix each (l : list value) : result (list string) :=
           match l with
           | [] => inr []
           | x :: rest =>
               let? part := match x with
                            | VUndefined | VNull => inr ""
                            | _ => primitiveText x
                            end in
               let? parts := each rest in
               inr (part :: parts)
           end) elems in
      inr (String.concat "," parts)
  | VObj fields =>
      if existsb (fun p => String.eqb (fst p) "toString") fields
      then inl (TypeError "Cannot convert object to primitive value")
      else inr "[object Object]"
  | _ => inr (ToString v)
  end.

(** A [Date] that reads those two forms, and numbers as milliseconds
    (within the range of time values). *)
Definition dateTime (v : value) : result (option Z) :=
  match v with
  | VStr s => inr (isoTime s)
  | VNum (Int z) => inr (if Z.abs z <=? 8640000000000000 then Some z else None)
  | VNum _ | VUndefined => inr None
  | VNull => inr (Some 0)
  | VBool b => inr (Some (if b then 1 else 0))
  | VArr _ | VObj _ =>
      let? text := primitiveText v in
      inr (isoTime text)
  end.

(** [atob]: forgiving base64 decoding. *)
Definition b64_value (c : ascii) : option nat :=
  let n := nat_of_ascii c in
  if ((65 <=? n) && (n <=? 90))%nat then Some (n - 65)%nat
  else if ((97 <=? n) && (n <=? 122))%nat then Some (n - 71)%nat
  else if ((48 <=? n) && (n <=? 57))%nat then Some (n + 4)%nat
  else if (n =? 43)%nat then Some 62%nat
  else if (n =? 47)%nat then Some 63%nat
  else None.

Fixpoint b64_values (l : list ascii) : option (list nat) :=
  match l with
  | [] => Some []
  | c :: rest =>
      match b64_value c, b64_values rest with
      | Some v, Some vs => Some (v :: vs)
      | _, _ => None
      end
  end.

Fixpoint b64_bytes (l : list nat) : option (list ascii) :=
  match l with
  | [] => Some []
  | [_] => None
  | [a; b] => Some [ascii_of_nat (a * 4 + b / 16)]
  | [a; b; c] =>
      Some [ascii_of_nat (a * 4 + b / 16); ascii_of_nat ((b mod 16) * 16 + c / 4)]
  | a :: b :: c :: d :: rest =>
      match b64_bytes rest with
      | Some bytes =>
          Some (ascii_of_nat (a * 4 + b / 16)
                :: ascii_of_nat ((b mod 16) * 16 + c / 4)
                :: ascii_of_nat ((c mod 4) * 64 + d) :: bytes)
      | None => None
      end
  end%nat.

Definition strip_padding (l : list ascii) : list ascii :=
  if (List.length l mod 4 =? 0)%nat then
    match rev l with
    | "="%char :: "="%char :: r => rev r
    | "="%char :: r => rev r
    | _ => l
    end
  else l.

Definition atob (s : string) : result string :=
  let chars := List.filter (fun c => negb (is_space c && negb (nat_of_ascii c =? 11)%nat))
                           (list_ascii_of_string s) in
  match b64_values (strip_padding chars) with
  | Some vs =>
      match b64_bytes vs with
      | Some bytes => inr (string_of_list_ascii bytes)
      | None => inl (InvalidCharacterError "The string to be decoded is not correctly encoded.")
      end
  | None => inl (InvalidCharacterError "The string to be decoded is not correctly encoded.")
  end.

(** A host over a given network, every request taking [delay]
    milliseconds. *)
Definition host (net : nat -> Request -> result Response) (delay : Z) : Host :=
  mkHost net (fun _ => delay) dateTime atob.

(** The configuration shipped in [src/config.ts]; the token comes from the
    environment. *)
Definition config (token : option string) : ProjectConfig :=
  mkConfig "withstudiocms" token
           ["studiocms"; "cfetch"; "bots"; "docs"; "ui"; "expressive-code-twoslash";
            "studiocms.dev"]
           100 true None.

(** The initial world of a process started at time [t]. *)
Definition boot (t : Z) : World := mkWorld ∅ t [] [].

(** Networks: one that answers every request alike, one that is down, and
    one that answers by the URL asked for ([404] for any other). *)
Definition always (r : Response) : nat -> Request -> result Response :=
  fun _ _ => inr r.

Definition offline : nat -> Request -> result Response :=
  fun _ _ => inl (TypeError "fetch failed").

Definition byUrl (table : list (string * Response)) : nat -> Request -> result Response :=
  fun _ req =>
    match List.find (fun p => String.eqb (fst p) (req_url req)) table with
    | Some p => inr (snd p)
    | None => inr (mkResponse 404 "Not Found" None)
    end.

(** A [200 OK] carrying [v]. *)
Definition okJson (v : value) : Response := mkResponse 200 "OK" (Some v).

(** An issue (or pull request) as the REST API lists it. *)
Definition issueJson (id : Z) (login updated_at : string) : value :=
  VObj [("id", VNum (Int id)); ("number", VNum (Int id)); ("title", VStr "Bug");
        ("state", VStr "open"); ("created_at", VStr "2024-01-01T00:00:00Z");
        ("updated_at", VStr updated_at);
        ("html_url", VStr "https://github.com/o/r/issues");
        ("user", VObj [("login", VStr login); ("avatar_url", VStr "")]);
        ("labels", VArr [VStr "bug"])].

(** The URL [fetchIssues] (resp. [fetchPullRequests]) asks for the open
    items of one repository. *)
Definition listUrl (org repo kind : string) : string :=
  "https://api.github.com/repos/" +:+ org +:+ "/" +:+ repo +:+ "/" +:+ kind
  +:+ "?state=open&per_page=100&sort=updated&direction=desc".

(** A configuration with the allow-list [repos] and one excluded user;
    discussions are switched off. *)
Definition only (repos : list string) : ProjectConfig :=
  mkConfig "o" None repos 100 false (Some ["bot"]).

(** The canonical item made from [issueJson] for repository [r]. *)
Definition item (type : ItemType) (number : Z) (login updated_at : string) : GitHubItem :=
  mkItem (VNum (Int number)) (VNum (Int number)) (VStr "Bug") (VStr "open")
         (VStr "2024-01-01T00:00:00Z") (VStr updated_at)
         (VStr "https://github.com/o/r/issues")
         (mkUser (VStr login) (VStr "")) [mkLabel (VStr "bug") (VStr "000000")]
         (VStr "r") type.

(** [{ type: 'issue' }] *)
Definition issuesOnly : FilterOptions := mkOptions None (Some FIssue) None.

(** [payload] with another [updated_at]; and a JSON object that has no
    primitive value (its own [toString] is not a function). *)
Definition withUpdatedAt (updated_at payload : value) : value :=
  match payload with
  | VObj fields =>
      VObj (map (fun p => if String.eqb (fst p) "updated_at" then (fst p, updated_at) else p)
                fields)
  | _ => payload
  end.

Definition noPrimitive : value := VObj [("toString", VNum (Int 1))].

(** A discussion node as the GraphQL query selects it, and the payload
    that lists such nodes. *)
Definition discussionNode (nodeId : string) (number : Z) (login updatedAt : string) : value :=
  VObj [("id", VStr nodeId); ("number", VNum (Int number)); ("title", VStr "Ideas");
        ("url", VStr "https://github.com/o/r/discussions");
        ("createdAt", VStr "2024-01-01T00:00:00Z"); ("updatedAt", VStr updatedAt);
        ("author", VObj [("login", VStr login); ("avatarUrl", VStr "")]);
        ("labels", VObj [("nodes", VArr [])]);
        ("closed", VBool false); ("closedAt", VNull)].

Definition discussionsPayload (nodes : list value) : value :=
  VObj [("data",
         VObj [("repository", VObj [("discussions", VObj [("nodes", VArr nodes)])])])].

End Sample.

(** ** Vocabulary of the statements *)

(** A repository name "contains a dot or hyphen". *)
Definition has_dot_or_hyphen (name : string) : Prop :=
  In "."%char (list_ascii_of_string name) \/ In "-"%char (list_ascii_of_string name).

(** [repo:"org/name"] and [repo:org/name]. *)
Definition quotedToken (org name : string) : string :=
  "repo:" +:+ dquote +:+ org +:+ "/" +:+ name +:+ dquote.

Definition plainToken (org name : string) : string :=
  "repo:" +:+ org +:+ "/" +:+ name.

(** The world as [w] but with the cache emptied of [key]. *)
Definition evict (key : string) (w : World) : World :=
  mkWorld (delete key (cache w)) (clock w) (console w) (sent w).

(** The world as [w] but read when the clock shows [t]. *)
Definition at_time (t : Z) (w : World) : World :=
  mkWorld (cache w) t (console w) (sent w).

(** The requests [githubFetch] and [githubGraphQL] hand to [fetch]. *)
Definition restRequest (config : ProjectConfig) (endpoint : string) : Request :=
  mkRequest (GITHUB_API_BASE +:+ endpoint) "GET"
            ([("Accept", "application/vnd.github+json");
              ("X-GitHub-Api-Version", "2022-11-28")] ++ authorization config)%list
            None.

Definition graphqlRequest (config : ProjectConfig) (query : string)
    (variables : option value) : Request :=
  mkRequest GITHUB_GRAPHQL_API "POST"
            ([("Accept", "application/vnd.github+json");
              ("Content-Type", "application/json")] ++ authorization config)%list
            (JSON_stringify (VObj [("query", VStr query);
                                   ("variables", default VUndefined variables)])).

(** The world once [fetch req] has settled in [w]. *)
Definition after_fetch (host : Host) (req : Request) (w : World) : World :=
  mkWorld (cache w) (clock w + latency host (List.length (sent w))) (console w)
          (sent w ++ [req])%list.

(** The world after a successful request stored [d] under [key]. *)
Definition after_store (host : Host) (req : Request) (key : string) (d : value)
    (w : World) : World :=
  mkWorld (<[key := mkEntry d (clock w + latency host (List.length (sent w)))]> (cache w))
          (clock w + latency host (List.length (sent w))) (console w)
          (sent w ++ [req])%list.

(** The world as [w] with one more line on the console. *)
Definition logged (line : string) (w : World) : World :=
  mkWorld (cache w) (clock w) (console w ++ [line])%list (sent w).

(** The world after a request failed and [line] was logged. *)
Definition after_failure (host : Host) (req : Request) (line : string) (w : World)
    : World :=
  mkWorld (cache w) (clock w + latency host (List.length (sent w)))
          (console w ++ [line])%list (sent w ++ [req])%list.

(** The three per-repository loops, as [fetchIssues], [fetchPullRequests]
    and [fetchDiscussions] run them from the accumulator [all]. *)
Definition issuesLoop (config : ProjectConfig) (host : Host) (org state : string)
    (repos : list string) (all : list GitHubItem) : M (list GitHubItem) :=
  forEachRepo (issuesOfRepo config host org state)
    (fun repo repoError =>
       console_error ("Error fetching issues from " +:+ org +:+ "/" +:+ repo +:+ ": "
                      +:+ message_of repoError))
    repos all.

Definition pullsLoop (config : ProjectConfig) (host : Host) (org state : string)
    (repos : list string) (all : list GitHubItem) : M (list GitHubItem) :=
  forEachRepo (pullsOfRepo config host org state)
    (fun repo repoError =>
       console_error ("Error fetching PRs from " +:+ org +:+ "/" +:+ repo +:+ ": "
                      +:+ message_of repoError))
    repos all.

Definition discussionsLoop (config : ProjectConfig) (host : Host) (org : string)
    (repos : list value) (all : list GitHubItem) : M (list GitHubItem) :=
  forEachRepo (discussionsOfRepo config host org)
    (fun repo repoError =>
       console_error ("Error fetching discussions for " +:+ ToString repo +:+ ": "
                      +:+ message_of repoError))
    repos all.

(** The list a fetcher returns for the outcome [r] of its last step: [r]
    itself, or nothing when that step threw. *)
Definition or_empty {A} (r : result (list A)) : list A :=
  match r with
  | inr l => l
  | inl _ => []
  end.

(** [fetcher] never throws in [w]: it returns [fallback] when [body] (the
    contents of its [try] block) throws, and what [body] returns
    otherwise. *)
Definition degrades_to {A} (fallback : A) (fetcher body : M A) (w : World) : Prop :=
  exists a : A,
    fst (fetcher w) = inr a /\
    (forall e, fst (body w) = inl e -> a = fallback) /\
    (forall v, fst (body w) = inr v -> a = v).

(** The configured excluded user names (none when the field is unset). *)
Definition excludedNames (config : ProjectConfig) : list string :=
  default [] (excludedUsers config).

(** The login of [item] equals, letter case aside, one of [names]. *)
Definition login_excluded (names : list string) (item : GitHubItem) : bool :=
  match user_login (item_user item) with
  | VStr login =>
      existsb (fun name => String.eqb (toLowerCase login) (toLowerCase name)) names
  | _ => false
  end.

(** The login of [item] is as [interface GitHubItem] types it, or absent. *)
Definition login_is_text (item : GitHubItem) : Prop :=
  match user_login (item_user item) with
  | VStr _ | VUndefined | VNull => True
  | _ => False
  end.

(** [fetchAllItems] is asked for the items of type [kind]:
    [type === 'all' || type === kind], with ['all'] the default. *)
Definition requested (options : FilterOptions) (kind : ItemType) : bool :=
  match default FAll (opt_type options), kind with
  | FAll, _ | FIssue, issue | FPr, pr | FDiscussion, discussion => true
  | _, _ => false
  end.

(** [item] with another [updated_at]. *)
Definition with_updated_at (item : GitHubItem) (updated_at : value) : GitHubItem :=
  mkItem (item_id item) (item_number item) (item_title item) (item_state item)
         (item_created_at item) updated_at (item_html_url item)
         (item_user item) (item_labels item) (item_repository item) (item_type item).




(** The id given to a discussion whose node identifier is [nodeId]: the
    Number nearest to the decimal value of the digits of [nodeId], and [0]
    when it has no digit. *)
Definition digits_id (nodeId : string) : num :=
  let digits := strip_non_digits nodeId in
  if String.eqb digits "" then Int 0 else to_double (decimal_value 0 digits).

(** * Properties *)

(** ** Query builder *)

Lemma needsQuotes_spec (name : string) :
  needsQuotes name = true <-> has_dot_or_hyphen name.
Proof.
  unfold needsQuotes, has_dot_or_hyphen. rewrite existsb_exists. split.
  - intros (c & Hin & Hc). apply orb_true_iff in Hc as [Hc | Hc];
      apply Ascii.eqb_eq in Hc; subst c; auto.
  - intros [H | H]; eexists; (split; [exact H |]); reflexivity.
Qed.

(** C6. [buildRepoFilter org []] is ["org:" ++ org]; for a non-empty list
    the result is the tokens joined by single spaces, one token per input
    name at the same position (so in input order, duplicates kept), the
    token of a name with a dot or hyphen being [repo:"org/name"] and the
    token of any other name [repo:org/name]. *)
Theorem buildRepoFilter_tokens (org : string) (repos : list string) :
  buildRepoFilter org [] = "org:" +:+ org /\
  (repos <> [] ->
   exists tokens : list string,
     buildRepoFilter org repos = String.concat " " tokens /\
     List.length tokens = List.length repos /\
     forall (i : nat) (name : string),
       nth_error repos i = Some name ->
       (has_dot_or_hyphen name -> nth_error tokens i = Some (quotedToken org name)) /\
       (~ has_dot_or_hyphen name -> nth_error tokens i = Some (plainToken org name))).
Proof.
  split; [reflexivity |].
  intros Hne. unfold buildRepoFilter.
  destruct repos as [| r rs]; [congruence |].
  cbn [List.length Nat.eqb].
  eexists. split; [reflexivity |]. split; [apply length_map |].
  intros i name Hi. rewrite nth_error_map, Hi. cbn [option_map].
  split; intros H.
  - apply needsQuotes_spec in H. rewrite H. reflexivity.
  - destruct (needsQuotes name) eqn:E; [| reflexivity].
    apply needsQuotes_spec in E. contradiction.
Qed.

Lemma buildRepoFilter_tokens_witness :
  exists tokens : list string,
    buildRepoFilter "o" ["a.b"; "ab"; "a.b"] = String.concat " " tokens /\
    List.length tokens = 3%nat /\
    nth_error tokens 0 = Some (quotedToken "o" "a.b") /\
    nth_error tokens 1 = Some (plainToken "o" "ab") /\
    nth_error tokens 2 = Some (quotedToken "o" "a.b").
Proof.
  destruct (buildRepoFilter_tokens "o" ["a.b"; "ab"; "a.b"]) as [_ H].
  destruct H as (tokens & Heq & Hlen & Htok); [discriminate |].
  exists tokens. split; [exact Heq |]. split; [exact Hlen |].
  split; [| split].
  - apply (Htok 0%nat "a.b"); [reflexivity |]. left. simpl. auto.
  - apply (Htok 1%nat "ab"); [reflexivity |].
    intros [H | H]; simpl in H; intuition discriminate.
  - apply (Htok 2%nat "a.b"); [reflexivity |]. left. simpl. auto.
Defined.

(** ** Cache *)

Lemma setCache_run (k : string) (v : value) (w : World) :
  setCache k v w =
  (inr tt, mkWorld (<[k := mkEntry v (clock w)]> (cache w)) (clock w) (console w) (sent w)).
Proof. reflexivity. Qed.

Lemma getCached_absent (k : string) (w : World) :
  cache w !! k = None -> getCached k w = (inr VNull, w).
Proof. intros H. unfold getCached, bind, cache_get. rewrite H. reflexivity. Qed.

Lemma getCached_fresh (k : string) (w : World) (entry : CacheEntry) :
  cache w !! k = Some entry ->
  clock w - timestamp entry <= CACHE_TTL ->
  getCached k w = (inr (data entry), w).
Proof.
  intros H Hle. unfold getCached, bind, cache_get, Date_now. rewrite H.
  destruct (Z.gtb_spec (clock w - timestamp entry) CACHE_TTL); [lia | reflexivity].
Qed.

Lemma getCached_stale (k : string) (w : World) (entry : CacheEntry) :
  cache w !! k = Some entry ->
  clock w - timestamp entry > CACHE_TTL ->
  getCached k w = (inr VNull, evict k w).
Proof.
  intros H Hgt. unfold getCached, bind, cache_get, Date_now. rewrite H.
  destruct (Z.gtb_spec (clock w - timestamp entry) CACHE_TTL); [reflexivity | lia].
Qed.

(** C5. After [setCache k v] at time [clock w0], a [getCached k] in any
    later world [w] that still holds that entry returns exactly [v] and
    leaves the world alone when [clock w - clock w0 <= 300000]; when
    [clock w - clock w0 > 300000] it returns [null] and deletes the entry
    of [k] (and nothing else) from the cache. *)
Theorem getCached_after_setCache (k : string) (v : value) (w0 w : World) :
  cache w !! k = cache (snd (setCache k v w0)) !! k ->
  (clock w - clock w0 <= 300000 -> getCached k w = (inr v, w)) /\
  (clock w - clock w0 > 300000 ->
   getCached k w = (inr VNull, evict k w) /\ cache (evict k w) !! k = None).
Proof.
  rewrite setCache_run. cbn [snd cache]. rewrite lookup_insert_eq. intros Hk.
  split; intros Ht.
  - apply (getCached_fresh k w (mkEntry v (clock w0))); [exact Hk |].
    cbn [timestamp]. unfold CACHE_TTL. lia.
  - split; [| apply lookup_delete_eq].
    apply (getCached_stale k w (mkEntry v (clock w0))); [exact Hk |].
    cbn [timestamp]. unfold CACHE_TTL. lia.
Qed.

Lemma getCached_after_setCache_witness :
  let w1 := snd (setCache "rest:/orgs/o" (VNum (Int 7)) (Sample.boot 1000)) in
  getCached "rest:/orgs/o" (at_time 301000 w1) = (inr (VNum (Int 7)), at_time 301000 w1) /\
  getCached "rest:/orgs/o" (at_time 301001 w1)
  = (inr VNull, evict "rest:/orgs/o" (at_time 301001 w1)).
Proof.
  intros w1. split.
  - apply (getCached_after_setCache "rest:/orgs/o" (VNum (Int 7)) (Sample.boot 1000)
             (at_time 301000 w1)); [reflexivity | simpl; lia].
  - apply (getCached_after_setCache "rest:/orgs/o" (VNum (Int 7)) (Sample.boot 1000)
             (at_time 301001 w1)); [reflexivity | simpl; lia].
Defined.

(** ** Transport *)

(** Closed equations are settled by evaluating their left-hand side. *)
Ltac by_computation :=
  lazymatch goal with |- ?l = _ => vm_cast_no_check (@eq_refl _ l) end.

Ltac run_M :=
  unfold bind, ret, throw, lift, try_catch, fetch, response_json, console_error,
    setCache, cache_set, Date_now in *.

Lemma getCached_total (k : string) (w : World) :
  exists v w', getCached k w = (inr v, w') /\
    clock w' = clock w /\ console w' = console w /\ sent w' = sent w.
Proof.
  unfold getCached, bind, cache_get, Date_now, cache_delete, ret.
  destruct (cache w !! k) as [entry |]; [| eauto 6].
  destruct (clock w - timestamp entry >? CACHE_TTL); cbn; eauto 6.
Qed.

Section TransportFacts.

Variable config : ProjectConfig.
Variable host : Host.

Lemma githubFetch_hit (endpoint : string) (w w1 : World) (v : value) :
  getCached ("rest:" +:+ endpoint) w = (inr v, w1) ->
  truthy v = true ->
  githubFetch config host endpoint w = (inr v, w1).
Proof. intros Hc Ht. unfold githubFetch, bind. rewrite Hc, Ht. reflexivity. Qed.

Lemma githubFetch_miss (endpoint : string) (w w1 : World) (v : value) :
  getCached ("rest:" +:+ endpoint) w = (inr v, w1) ->
  truthy v = false ->
  let req := restRequest config endpoint in
  githubFetch config host endpoint w =
  match network host (List.length (sent w1)) req with
  | inl e => (inl e, after_fetch host req w1)
  | inr response =>
      if ok response then
        match body response with
        | Some d => (inr d, after_store host req ("rest:" +:+ endpoint) d w1)
        | None => (inl (SyntaxError "Unexpected token in JSON"), after_fetch host req w1)
        end
      else
        (inl (Error ("GitHub API request failed: " +:+ statusText response)),
         after_failure host req
           ("GitHub API error: " +:+ pretty (status response) +:+ " "
            +:+ statusText response) w1)
  end.
Proof.
  intros Hc Ht req. unfold githubFetch, bind at 1. rewrite Hc, Ht.
  run_M. fold (restRequest config endpoint). fold req.
  destruct (network host (List.length (sent w1)) req) as [e | response]; [reflexivity |].
  destruct (ok response); cbn [negb]; [| reflexivity].
  destruct (body response); reflexivity.
Qed.

Lemma githubGraphQL_hit (query : string) (variables : option value) (w w1 : World)
    (v : value) :
  getCached (graphqlCacheKey query variables) w = (inr v, w1) ->
  truthy v = true ->
  githubGraphQL config host query variables w = (inr v, w1).
Proof. intros Hc Ht. unfold githubGraphQL, bind. rewrite Hc, Ht. reflexivity. Qed.

Lemma githubGraphQL_miss (query : string) (variables : option value) (w w1 : World)
    (v : value) :
  getCached (graphqlCacheKey query variables) w = (inr v, w1) ->
  truthy v = false ->
  let req := graphqlRequest config query variables in
  githubGraphQL config host query variables w =
  match network host (List.length (sent w1)) req with
  | inl e => (inl e, after_fetch host req w1)
  | inr response =>
      if ok response then
        match body response with
        | Some res =>
            match getprop res "errors" with
            | inl e => (inl e, after_fetch host req w1)
            | inr errors =>
                if truthy errors then
                  (inl (Error ("GraphQL errors: "
                               +:+ default "undefined" (JSON_stringify errors))),
                   after_failure host req ("GraphQL errors: " +:+ ToString errors) w1)
                else
                  match getprop res "data" with
                  | inl e => (inl e, after_fetch host req w1)
                  | inr d =>
                      (inr d, after_store host req (graphqlCacheKey query variables) d w1)
                  end
            end
        | None => (inl (SyntaxError "Unexpected token in JSON"), after_fetch host req w1)
        end
      else
        (inl (Error ("GitHub GraphQL request failed: " +:+ statusText response)),
         after_failure host req
           ("GitHub GraphQL error: " +:+ pretty (status response) +:+ " "
            +:+ statusText response) w1)
  end.
Proof.
  intros Hc Ht req. unfold githubGraphQL, bind at 1. rewrite Hc, Ht.
  run_M. fold (graphqlRequest config query variables). fold req.
  destruct (network host (List.length (sent w1)) req) as [e | response]; [reflexivity |].
  destruct (ok response); cbn [negb]; [| reflexivity].
  destruct (body response) as [res |]; [| reflexivity].
  unfold ret. cbn beta iota.
  destruct (getprop res "errors") as [e | errors]; [reflexivity |].
  destruct (truthy errors); [reflexivity |].
  destruct (getprop res "data"); reflexivity.
Qed.

End TransportFacts.

(** C10. Let the cache of [w] hold, within the time to live, an entry
    under the key of a REST endpoint (resp. of a GraphQL query). Then
    [getCached] returns the stored data and leaves the entry in place; a
    truthy datum is returned by [githubFetch] (resp. [githubGraphQL])
    without any request; a falsy datum makes it send exactly one request,
    and when that request succeeds with payload [d] the result is [d] and
    the entry of the key is overwritten with [d]. *)
Theorem falsy_cached_value_is_refetched (config : ProjectConfig) (host : Host)
    (entry : CacheEntry) (w : World) :
  clock w - timestamp entry <= CACHE_TTL ->
  (forall endpoint : string,
     let key := "rest:" +:+ endpoint in
     let req := restRequest config endpoint in
     cache w !! key = Some entry ->
     getCached key w = (inr (data entry), w) /\
     (truthy (data entry) = true ->
      githubFetch config host endpoint w = (inr (data entry), w)) /\
     (truthy (data entry) = false ->
      sent (snd (githubFetch config host endpoint w)) = (sent w ++ [req])%list /\
      forall (response : Response) (d : value),
        network host (List.length (sent w)) req = inr response ->
        ok response = true ->
        body response = Some d ->
        githubFetch config host endpoint w = (inr d, after_store host req key d w) /\
        cache (after_store host req key d w) !! key
        = Some (mkEntry d (clock w + latency host (List.length (sent w)))))) /\
  (forall (query : string) (variables : option value),
     let key := graphqlCacheKey query variables in
     let req := graphqlRequest config query variables in
     cache w !! key = Some entry ->
     getCached key w = (inr (data entry), w) /\
     (truthy (data entry) = true ->
      githubGraphQL config host query variables w = (inr (data entry), w)) /\
     (truthy (data entry) = false ->
      sent (snd (githubGraphQL config host query variables w)) = (sent w ++ [req])%list /\
      forall (response : Response) (res errors d : value),
        network host (List.length (sent w)) req = inr response ->
        ok response = true ->
        body response = Some res ->
        getprop res "errors" = inr errors ->
        truthy errors = false ->
        getprop res "data" = inr d ->
        githubGraphQL config host query variables w = (inr d, after_store host req key d w) /\
        cache (after_store host req key d w) !! key
        = Some (mkEntry d (clock w + latency host (List.length (sent w)))))).
Proof.
  intros Hfresh. split.
  - intros endpoint key req Hk.
    pose proof (getCached_fresh key w entry Hk Hfresh) as Hget.
    split; [exact Hget |]. split; intros Ht.
    + exact (githubFetch_hit config host endpoint w w (data entry) Hget Ht).
    + pose proof (githubFetch_miss config host endpoint w w (data entry) Hget Ht) as Hrun.
      cbn zeta in Hrun. fold req in Hrun. split.
      * rewrite Hrun.
        destruct (network host (List.length (sent w)) req) as [e | response];
          [reflexivity |].
        destruct (ok response); [| reflexivity].
        destruct (body response); reflexivity.
      * intros response d Hnet Hok Hbody. rewrite Hrun, Hnet, Hok, Hbody.
        split; [reflexivity |]. cbn [after_store cache]. apply lookup_insert_eq.
  - intros query variables key req Hk.
    pose proof (getCached_fresh key w entry Hk Hfresh) as Hget.
    split; [exact Hget |]. split; intros Ht.
    + exact (githubGraphQL_hit config host query variables w w (data entry) Hget Ht).
    + pose proof (githubGraphQL_miss config host query variables w w (data entry) Hget Ht)
        as Hrun.
      cbn zeta in Hrun. fold req in Hrun. fold key in Hrun. split.
      * rewrite Hrun.
        destruct (network host (List.length (sent w)) req) as [e | response];
          [reflexivity |].
        destruct (ok response); [| reflexivity].
        destruct (body response) as [res |]; [| reflexivity].
        destruct (getprop res "errors") as [e | errors]; [reflexivity |].
        destruct (truthy errors); [reflexivity |].
        destruct (getprop res "data"); reflexivity.
      * intros response res errors d Hnet Hok Hbody Herr Hfalsy Hdata.
        rewrite Hrun, Hnet, Hok, Hbody, Herr, Hfalsy, Hdata.
        split; [reflexivity |]. cbn [after_store cache]. apply lookup_insert_eq.
Qed.

Lemma falsy_cached_value_is_refetched_witness :
  let config := Sample.config None in
  let host := Sample.host (Sample.always (Sample.okJson (VNum (Int 5)))) 10 in
  let w := snd (setCache "rest:/orgs/o" VNull (Sample.boot 0)) in
  getCached "rest:/orgs/o" w = (inr VNull, w) /\
  githubFetch config host "/orgs/o" w
  = (inr (VNum (Int 5)),
     after_store host (restRequest config "/orgs/o") "rest:/orgs/o" (VNum (Int 5)) w).
Proof.
  intros config host w.
  destruct (falsy_cached_value_is_refetched config host (mkEntry VNull 0) w) as [Hrest _];
    [simpl; unfold CACHE_TTL; lia |].
  destruct (Hrest "/orgs/o") as (Hget & _ & Hmiss); [apply lookup_insert_eq |].
  split; [exact Hget |].
  destruct (Hmiss eq_refl) as [_ Hrun].
  apply (Hrun (Sample.okJson (VNum (Int 5))) (VNum (Int 5))); reflexivity.
Defined.

(** C8, as stated, does not hold: the error thrown for a non-2xx response
    does not carry the status code. Two responses with the statuses [404]
    and [503] and the same status text make [githubFetch] (and
    [githubGraphQL]) throw the very same error, whose message holds the
    status text only. *)
Lemma transport_error_omits_status_code :
  let config := Sample.config None in
  let answer st := Sample.host (Sample.always (mkResponse st "Unavailable" None)) 0 in
  ok (mkResponse 404 "Unavailable" None) = false /\
  ok (mkResponse 503 "Unavailable" None) = false /\
  fst (githubFetch config (answer 404) "/orgs/o" (Sample.boot 0))
  = inl (Error "GitHub API request failed: Unavailable") /\
  fst (githubFetch config (answer 503) "/orgs/o" (Sample.boot 0))
  = inl (Error "GitHub API request failed: Unavailable") /\
  fst (githubGraphQL config (answer 404) "{ viewer { login } }" None (Sample.boot 0))
  = inl (Error "GitHub GraphQL request failed: Unavailable") /\
  fst (githubGraphQL config (answer 503) "{ viewer { login } }" None (Sample.boot 0))
  = inl (Error "GitHub GraphQL request failed: Unavailable").
Proof. vm_compute. repeat split. Qed.

(** C8, amended. When the cache has no truthy value for the request and
    the response is not 2xx, [githubFetch] throws
    [Error "GitHub API request failed: <status text>"] and [githubGraphQL]
    throws [Error "GitHub GraphQL request failed: <status text>"]: the error
    carries the status text only. The status code goes, with the status
    text, on the one console line written before the throw. The outcome is
    the same for every body [b] of the response (the body is not parsed),
    and the cache is left as the lookup left it. *)
Theorem transport_error_carries_status_text (config : ProjectConfig) (host : Host)
    (st : Z) (text : string) (b : option value) (w w1 : World) (v : value) :
  ok (mkResponse st text b) = false ->
  truthy v = false ->
  (forall endpoint : string,
     let req := restRequest config endpoint in
     getCached ("rest:" +:+ endpoint) w = (inr v, w1) ->
     network host (List.length (sent w1)) req = inr (mkResponse st text b) ->
     githubFetch config host endpoint w
     = (inl (Error ("GitHub API request failed: " +:+ text)),
        after_failure host req ("GitHub API error: " +:+ pretty st +:+ " " +:+ text) w1)) /\
  (forall (query : string) (variables : option value),
     let req := graphqlRequest config query variables in
     getCached (graphqlCacheKey query variables) w = (inr v, w1) ->
     network host (List.length (sent w1)) req = inr (mkResponse st text b) ->
     githubGraphQL config host query variables w
     = (inl (Error ("GitHub GraphQL request failed: " +:+ text)),
        after_failure host req ("GitHub GraphQL error: " +:+ pretty st +:+ " " +:+ text) w1)).
Proof.
  intros Hok Hv. split.
  - intros endpoint req Hget Hnet.
    pose proof (githubFetch_miss config host endpoint w w1 v Hget Hv) as Hrun.
    cbn zeta in Hrun. fold req in Hrun. rewrite Hrun, Hnet, Hok. reflexivity.
  - intros query variables req Hget Hnet.
    pose proof (githubGraphQL_miss config host query variables w w1 v Hget Hv) as Hrun.
    cbn zeta in Hrun. fold req in Hrun. rewrite Hrun, Hnet, Hok. reflexivity.
Qed.

Lemma transport_error_carries_status_text_witness :
  let config := Sample.config None in
  let response := mkResponse 404 "Not Found" (Some (VStr "ignored")) in
  let host := Sample.host (Sample.always response) 10 in
  let w := Sample.boot 0 in
  githubFetch config host "/orgs/o" w
  = (inl (Error "GitHub API request failed: Not Found"),
     after_failure host (restRequest config "/orgs/o")
       "GitHub API error: 404 Not Found" w) /\
  fst (githubGraphQL config host "{ viewer { login } }" None w)
  = inl (Error "GitHub GraphQL request failed: Not Found").
Proof.
  intros config response host w.
  destruct (transport_error_carries_status_text config host 404 "Not Found"
              (Some (VStr "ignored")) w w VNull) as [Hrest Hgql];
    [reflexivity | reflexivity |].
  split.
  - apply (Hrest "/orgs/o"); reflexivity.
  - rewrite (Hgql "{ viewer { login } }" None); reflexivity.
Defined.

(** ** Pure computations that may throw *)

Lemma bindR_inr {A B} (r : result A) (k : A -> result B) (b : B) :
  bindR r k = inr b -> exists a, r = inr a /\ k a = inr b.
Proof. destruct r as [e | a]; cbn; [discriminate | eauto]. Qed.

Ltac invert_result :=
  repeat match goal with
         | H : bindR _ _ = inr _ |- _ =>
             let a := fresh "a" in
             let Ha := fresh "Ha" in
             apply bindR_inr in H; destruct H as (a & Ha & H)
         | H : inr _ = inr _ |- _ => injection H as H
         | H : inl _ = inr _ |- _ => discriminate H
         end.

Lemma mapR_Forall2 {A B} (f : A -> result B) (R : A -> B -> Prop) :
  (forall x y, f x = inr y -> R x y) ->
  forall l out, mapR f l = inr out -> Forall2 R l out.
Proof.
  intros Hf. induction l as [| x l IH]; intros out H; cbn in H.
  - injection H as <-. constructor.
  - invert_result. subst out. constructor; auto.
Qed.

Lemma mapR_Forall {A B} (f : A -> result B) (Q : B -> Prop) :
  (forall x y, f x = inr y -> Q y) ->
  forall l out, mapR f l = inr out -> Forall Q out.
Proof.
  intros Hf. induction l as [| x l IH]; intros out H; cbn in H.
  - injection H as <-. constructor.
  - invert_result. subst out. constructor; eauto.
Qed.

(** ** Discussion identifiers *)

Lemma or_else_number (n : num) :
  n <> NaN -> or_else (VNum n) (VNum (Int 0)) = VNum n.
Proof.
  intros Hn. destruct n as [| z |]; [congruence | | reflexivity].
  unfold or_else. cbn. destruct (Z.eqb_spec z 0) as [-> |]; reflexivity.
Qed.

Lemma to_double_number (n : Z) : to_double n <> NaN.
Proof.
  unfold to_double. destruct (n <? 2 ^ 53); [discriminate |].
  cbv zeta. match goal with |- (if ?c then _ else _) <> _ => destruct c end; discriminate.
Qed.

Lemma discussionId_digits (nodeId : string) :
  discussionId (VStr nodeId) = inr (VNum (digits_id nodeId)).
Proof.
  unfold discussionId, digits_id, parseInt_digits. cbv zeta.
  destruct (strip_non_digits nodeId) as [| c rest] eqn:E; [reflexivity |].
  cbn [String.eqb]. rewrite or_else_number; [reflexivity | apply to_double_number].
Qed.

Lemma digits_id_exact (nodeId : string) :
  decimal_value 0 (strip_non_digits nodeId) < 2 ^ 53 ->
  digits_id nodeId = Int (decimal_value 0 (strip_non_digits nodeId)).
Proof.
  intros Hsmall. unfold digits_id. cbv zeta.
  destruct (strip_non_digits nodeId) as [| c rest] eqn:E; [reflexivity |].
  cbn [String.eqb]. unfold to_double.
  destruct (Z.ltb_spec (decimal_value 0 (String c rest)) (2 ^ 53)); [reflexivity | lia].
Qed.

Lemma transformDiscussion_id (repo disc : value) (item : GitHubItem) :
  transformDiscussion repo disc = inr item ->
  exists nodeId : string,
    getprop disc "id" = inr (VStr nodeId) /\ item_id item = VNum (digits_id nodeId).
Proof.
  unfold transformDiscussion. intros H. invert_result. subst item. cbn [item_id].
  destruct a as [| | | | nodeId | |]; try discriminate.
  exists nodeId. split; [assumption |].
  rewrite discussionId_digits in Ha0. congruence.
Qed.

(** C9, as stated, does not hold: the synthesized ids need not be pairwise
    unique within one batch. One [fetchDiscussions] call whose repository
    answers with the two nodes ["D_a1"] and ["D_b1"] returns two items
    (numbers 1 and 2) that both have the id [1]. *)
Lemma discussion_ids_collide :
  let nodes := [Sample.discussionNode "D_a1" 1 "ann" "2024-02-01T00:00:00Z";
                Sample.discussionNode "D_b1" 2 "bob" "2024-01-01T00:00:00Z"] in
  let host := Sample.host (Sample.always (Sample.okJson (Sample.discussionsPayload nodes))) 0 in
  let batch := fst (fetchDiscussions (Sample.config None) host "o" ["r"] (Sample.boot 0)) in
  match batch with
  | inr [first; second] =>
      item_id first = VNum (Int 1) /\ item_id second = VNum (Int 1) /\
      item_number first = VNum (Int 1) /\ item_number second = VNum (Int 2)
  | _ => False
  end.
Proof. vm_compute. repeat split. Qed.

(** C9, amended. For every batch of discussion nodes mapped by
    [fetchDiscussions], each item's id is determined by the node
    identifier alone (so equal identifiers give equal ids): the node
    identifier is a string and the id is [digits_id] of it, which is [0]
    when no digit remains and is exactly the decimal value of the remaining
    digits when that value is below [2^53] (above, it is the nearest
    Number). Ids of different nodes may coincide. *)
Theorem discussion_ids_from_node_identifiers (repo : value) (nodes : list value)
    (items : list GitHubItem) :
  mapR (transformDiscussion repo) nodes = inr items ->
  Forall2 (fun disc item =>
             exists nodeId : string,
               getprop disc "id" = inr (VStr nodeId) /\
               item_id item = VNum (digits_id nodeId) /\
               (strip_non_digits nodeId = "" -> item_id item = VNum (Int 0)) /\
               (decimal_value 0 (strip_non_digits nodeId) < 2 ^ 53 ->
                item_id item = VNum (Int (decimal_value 0 (strip_non_digits nodeId)))))
          nodes items.
Proof.
  apply mapR_Forall2. intros disc item H.
  destruct (transformDiscussion_id repo disc item H) as (nodeId & Hid & Hitem).
  exists nodeId. split; [exact Hid |]. split; [exact Hitem |]. split.
  - intros Hnone. rewrite Hitem. unfold digits_id. rewrite Hnone. reflexivity.
  - intros Hsmall. rewrite Hitem, digits_id_exact by exact Hsmall. reflexivity.
Qed.

Lemma discussion_ids_from_node_identifiers_witness :
  let nodes := [Sample.discussionNode "D_kwDOA12b3" 7 "ann" "2024-02-01T00:00:00Z";
                Sample.discussionNode "D_kwDO" 8 "bob" "2024-01-01T00:00:00Z"] in
  exists items : list GitHubItem,
    mapR (transformDiscussion (VStr "r")) nodes = inr items /\
    map item_id items = [VNum (Int 123); VNum (Int 0)] /\
    Forall2 (fun disc item =>
               exists nodeId : string,
                 getprop disc "id" = inr (VStr nodeId) /\
                 item_id item = VNum (digits_id nodeId) /\
                 (strip_non_digits nodeId = "" -> item_id item = VNum (Int 0)) /\
                 (decimal_value 0 (strip_non_digits nodeId) < 2 ^ 53 ->
                  item_id item = VNum (Int (decimal_value 0 (strip_non_digits nodeId)))))
            nodes items.
Proof.
  intros nodes. eexists. split; [vm_compute; reflexivity |]. split; [reflexivity |].
  apply (discussion_ids_from_node_identifiers (VStr "r")). vm_compute. reflexivity.
Defined.

(** ** Computations over the world *)

Lemma bind_inr {A B} (m : M A) (k : A -> M B) (w : World) (b : B) (w' : World) :
  bind m k w = (inr b, w') ->
  exists a w1, m w = (inr a, w1) /\ k a w1 = (inr b, w').
Proof. unfold bind. destruct (m w) as [[e | a] w1]; [discriminate | eauto]. Qed.

Lemma lift_inr {A} (r : result A) (w : World) (a : A) (w' : World) :
  lift r w = (inr a, w') -> r = inr a /\ w' = w.
Proof. unfold lift. intros H. injection H as -> ->. auto. Qed.

Lemma ret_inr {A} (a : A) (w : World) (b : A) (w' : World) :
  ret a w = (inr b, w') -> b = a /\ w' = w.
Proof. unfold ret. intros H. injection H as -> ->. auto. Qed.

Lemma try_catch_run {A} (m : M A) (h : exn -> M A) (w : World) :
  try_catch m h w =
  match m w with
  | (inl e, w1) => h e w1
  | (inr a, w1) => (inr a, w1)
  end.
Proof. reflexivity. Qed.

(** What the outer [catch] of every fetcher does: log one line, return
    the fallback. *)
Lemma recover_run {A} (line : string) (fallback : A) (w : World) :
  (console_error line ;; ret fallback) w = (inr fallback, logged line w).
Proof. reflexivity. Qed.

Ltac invert_M :=
  repeat match goal with
         | H : bind _ _ _ = (inr _, _) |- _ =>
             let a := fresh "a" in
             let w1 := fresh "w" in
             let Ha := fresh "Hrun" in
             apply bind_inr in H; destruct H as (a & w1 & Ha & H)
         | H : lift _ _ = (inr _, _) |- _ =>
             let Hw := fresh "Hw" in
             apply lift_inr in H; destruct H as [H Hw]; try subst
         | H : ret _ _ = (inr _, _) |- _ =>
             let Hw := fresh "Hw" in
             apply ret_inr in H; destruct H as [H Hw]; try subst
         end.

(** A fetcher built as [try { body } catch { log; return fallback }]
    returns what the body returns, and the fallback when the body throws. *)
Lemma guarded_total {A} (body : M A) (line : exn -> string) (fallback : A) (w : World) :
  exists a w',
    try_catch body (fun error => console_error (line error) ;; ret fallback) w = (inr a, w') /\
    (forall e, fst (body w) = inl e -> a = fallback) /\
    (forall v, fst (body w) = inr v -> a = v).
Proof.
  rewrite try_catch_run. destruct (body w) as [[e | v] w1].
  - exists fallback, (logged (line e) w1). split; [reflexivity |].
    split; [reflexivity |]. cbn. discriminate.
  - exists v, w1. split; [reflexivity |]. cbn. split; [discriminate |]. congruence.
Qed.

Lemma guarded_inr {A} (body : M A) (line : exn -> string) (fallback : A) (w : World)
    (a : A) (w' : World) :
  try_catch body (fun error => console_error (line error) ;; ret fallback) w = (inr a, w') ->
  body w = (inr a, w') \/ a = fallback.
Proof.
  rewrite try_catch_run. destruct (body w) as [[e | v] w1].
  - rewrite recover_run. intros H. injection H as <- <-. now right.
  - intros H. now left.
Qed.

(** ** The per-repository loop *)

Section Loop.

Context {R : Type} (body : R -> M (list GitHubItem)) (onError : R -> exn -> M unit).

Lemma forEachRepo_app (xs ys : list R) (all : list GitHubItem) (w : World) :
  forEachRepo body onError (xs ++ ys) all w =
  bind (forEachRepo body onError xs all) (fun all' => forEachRepo body onError ys all') w.
Proof.
  revert all w. induction xs as [| x xs IH]; intros all w; [reflexivity |].
  cbn [app forEachRepo]. unfold bind in *.
  destruct (try_catch _ _ w) as [[e | all'] w1]; [reflexivity |]. apply IH.
Qed.

Lemma forEachRepo_Forall (Q : GitHubItem -> Prop) :
  (forall r w items w', body r w = (inr items, w') -> Forall Q items) ->
  forall repos all w out w',
    Forall Q all ->
    forEachRepo body onError repos all w = (inr out, w') ->
    Forall Q out.
Proof.
  intros Hbody. induction repos as [| r repos IH]; intros all w out w' Hall H.
  - cbn in H. invert_M. exact Hall.
  - cbn [forEachRepo] in H. apply bind_inr in H. destruct H as (all' & w1 & Hstep & H).
    apply (IH all' w1 out w'); [| exact H].
    rewrite try_catch_run in Hstep.
    destruct (bind (body r) _ w) as [[e | a] w2] eqn:Hb.
    + invert_M. exact Hall.
    + injection Hstep as -> ->. invert_M. apply Forall_app. split; [exact Hall |].
      eapply Hbody. eassumption.
Qed.

(** The step of the loop on [repo], from the accumulator [all]. *)
Lemma forEachRepo_step_ok (repo : R) (rest : list R) (all items : list GitHubItem)
    (w w1 : World) :
  body repo w = (inr items, w1) ->
  forEachRepo body onError (repo :: rest) all w
  = forEachRepo body onError rest (all ++ items)%list w1.
Proof.
  intros Hb. cbn [forEachRepo]. unfold bind at 1. rewrite try_catch_run.
  unfold bind at 1. rewrite Hb. reflexivity.
Qed.

Lemma forEachRepo_step_failed (repo : R) (rest : list R) (all : list GitHubItem)
    (e : exn) (w w1 w2 : World) :
  body repo w = (inl e, w1) ->
  onError repo e w1 = (inr tt, w2) ->
  forEachRepo body onError (repo :: rest) all w
  = forEachRepo body onError rest all w2.
Proof.
  intros Hb He. cbn [forEachRepo]. unfold bind at 1. rewrite try_catch_run.
  unfold bind at 1. rewrite Hb. unfold bind at 1. rewrite He. reflexivity.
Qed.

Hypothesis onError_returns : forall r e w, exists w', onError r e w = (inr tt, w').

(** The loop never throws, and what it adds to the accumulator does not
    depend on the accumulator. *)
Lemma forEachRepo_acc (repos : list R) (all : list GitHubItem) (w : World) :
  exists items w',
    forEachRepo body onError repos [] w = (inr items, w') /\
    forEachRepo body onError repos all w = (inr (all ++ items)%list, w').
Proof.
  revert all w. induction repos as [| r repos IH]; intros all w.
  - exists [], w. cbn. unfold ret. rewrite app_nil_r. auto.
  - destruct (body r w) as [[e | items] w1] eqn:Hb.
    + destruct (onError_returns r e w1) as [w2 He].
      rewrite !(forEachRepo_step_failed r repos _ e w w1 w2 Hb He).
      apply IH.
    + rewrite !(forEachRepo_step_ok r repos _ items w w1 Hb). cbn [app].
      destruct (IH items w1) as (more & w' & Hnil & Hitems).
      destruct (IH (all ++ items)%list w1) as (more' & w'' & Hnil' & Hall).
      rewrite Hnil in Hnil'. injection Hnil' as <- <-.
      exists (items ++ more)%list, w'. split; [exact Hitems |].
      rewrite Hall, app_assoc. reflexivity.
Qed.

End Loop.

(** ** Error boundaries of the fetchers *)

Lemma guarded_degrades {A} (body : M A) (line : exn -> string) (fallback : A) (w : World) :
  degrades_to fallback
    (try_catch body (fun error => console_error (line error) ;; ret fallback)) body w.
Proof.
  destruct (guarded_total body line fallback w) as (a & w' & Hrun & Hfail & Hok).
  exists a. rewrite Hrun. auto.
Qed.

(** C4. None of the six public fetchers throws, whatever its arguments
    and the state of the world: each returns a value, which is the empty
    list ([null] for [fetchOrganization] and [fetchReadme]) when anything
    inside its [try] block throws, and the value the block computes
    otherwise. *)
Theorem public_fetchers_never_raise (config : ProjectConfig) (host : Host)
    (org state repo : string) (repos : list string) (w : World) :
  degrades_to [] (fetchIssues config host org state repos)
              (fetchIssues_body config host org state repos) w /\
  degrades_to [] (fetchPullRequests config host org state repos)
              (fetchPullRequests_body config host org state repos) w /\
  degrades_to [] (fetchDiscussions config host org repos)
              (fetchDiscussions_body config host org repos) w /\
  degrades_to [] (getOrgRepositories config host org)
              (getOrgRepositories_body config host org) w /\
  degrades_to VNull (fetchOrganization config host org)
              (githubFetch config host ("/orgs/" +:+ org)) w /\
  degrades_to VNull (fetchReadme config host org repo)
              (fetchReadme_body config host org repo) w.
Proof.
  repeat split.
  - apply (guarded_degrades _ (fun error => "Error fetching issues: " +:+ message_of error)).
  - apply (guarded_degrades _
             (fun error => "Error fetching pull requests: " +:+ message_of error)).
  - apply (guarded_degrades _
             (fun error => "Error fetching discussions: " +:+ message_of error)).
  - apply (guarded_degrades _
             (fun error => "Error fetching repositories: " +:+ message_of error)).
  - apply (guarded_degrades _
             (fun error => "Failed to fetch organization " +:+ org +:+ ": "
                           +:+ message_of error)).
  - apply (guarded_degrades _
             (fun error => "Failed to fetch README for " +:+ org +:+ "/" +:+ repo +:+ ": "
                           +:+ message_of error)).
Qed.

Lemma public_fetchers_never_raise_witness :
  let config := Sample.config None in
  let host := Sample.host Sample.offline 0 in
  fst (fetchIssues config host "o" "open" [] (Sample.boot 0)) = inr [] /\
  fst (fetchOrganization config host "o" (Sample.boot 0)) = inr VNull.
Proof.
  intros config host.
  destruct (public_fetchers_never_raise config host "o" "open" "r" [] (Sample.boot 0))
    as ((items & Hissues & Hfail & _) & _ & _ & _ & (v & Horg & Hfail' & _) & _).
  rewrite Hissues, Horg.
  rewrite (Hfail (TypeError "fetch failed")) by reflexivity.
  rewrite (Hfail' (TypeError "fetch failed")) by reflexivity.
  split; reflexivity.
Defined.

(** ** One failing repository *)

Section Skipping.

Context {R : Type} (body : R -> M (list GitHubItem)) (line : R -> exn -> string).

Lemma loop_skips_failed (pre : list R) (r : R) (post : list R)
    (before after : list GitHubItem) (e : exn) (w w1 w2 w3 : World) :
  forEachRepo body (fun repo repoError => console_error (line repo repoError)) pre [] w
  = (inr before, w1) ->
  body r w1 = (inl e, w2) ->
  forEachRepo body (fun repo repoError => console_error (line repo repoError)) post []
    (logged (line r e) w2)
  = (inr after, w3) ->
  forEachRepo body (fun repo repoError => console_error (line repo repoError))
    (pre ++ r :: post) [] w
  = (inr (before ++ after)%list, w3).
Proof.
  intros Hpre Hr Hpost.
  rewrite forEachRepo_app. unfold bind at 1. rewrite Hpre.
  rewrite (forEachRepo_step_failed _ _ r post before e w1 w2 (logged (line r e) w2) Hr eq_refl).
  destruct (forEachRepo_acc body (fun repo repoError => console_error (line repo repoError))
              (fun r0 e0 w0 => ex_intro _ (logged (line r0 e0) w0) eq_refl)
              post before (logged (line r e) w2))
    as (items & w' & Hnil & Hall).
  rewrite Hpost in Hnil. injection Hnil as <- <-. exact Hall.
Qed.

End Skipping.

Lemma filtered_or_empty (config : ProjectConfig) (loop : M (list GitHubItem))
    (line : exn -> string) (all : list GitHubItem) (w w1 : World) :
  loop w = (inr all, w1) ->
  fst (try_catch (let* found := loop in lift (filterByUser config found))
                 (fun error => console_error (line error) ;; ret []) w)
  = inr (or_empty (filterByUser config all)).
Proof.
  intros Hloop. rewrite try_catch_run. unfold bind at 1. rewrite Hloop. unfold lift.
  destruct (filterByUser config all); reflexivity.
Qed.

Lemma length_around {A} (pre : list A) (r : A) (post : list A) :
  (0 <? List.length (pre ++ r :: post))%nat = true.
Proof. apply Nat.ltb_lt. rewrite length_app. cbn [List.length]. lia. Qed.

(** C3. Let the allow-list be [pre ++ r :: post], let the loop over
    [pre] yield the items [before], let the per-repository fetch of [r]
    throw [e] in the state so reached, and let the loop over [post], run
    from the state in which that failure has been logged, yield [after].
    Then [fetchIssues] (and likewise [fetchPullRequests] and
    [fetchDiscussions]) does not throw: it returns the user-filtered
    [before ++ after], so [r] contributes nothing and the items of the
    other repositories are returned as fetched. *)
Theorem failing_repository_is_skipped (config : ProjectConfig) (host : Host)
    (org state : string) (pre : list string) (r : string) (post : list string)
    (before after : list GitHubItem) (e : exn) (w w1 w2 w3 : World) :
  (issuesLoop config host org state pre [] w = (inr before, w1) ->
   issuesOfRepo config host org state r w1 = (inl e, w2) ->
   issuesLoop config host org state post []
     (logged ("Error fetching issues from " +:+ org +:+ "/" +:+ r +:+ ": " +:+ message_of e)
             w2)
   = (inr after, w3) ->
   fst (fetchIssues config host org state (pre ++ r :: post) w)
   = inr (or_empty (filterByUser config (before ++ after)))) /\
  (pullsLoop config host org state pre [] w = (inr before, w1) ->
   pullsOfRepo config host org state r w1 = (inl e, w2) ->
   pullsLoop config host org state post []
     (logged ("Error fetching PRs from " +:+ org +:+ "/" +:+ r +:+ ": " +:+ message_of e) w2)
   = (inr after, w3) ->
   fst (fetchPullRequests config host org state (pre ++ r :: post) w)
   = inr (or_empty (filterByUser config (before ++ after)))) /\
  (discussionsLoop config host org (map VStr pre) [] w = (inr before, w1) ->
   discussionsOfRepo config host org (VStr r) w1 = (inl e, w2) ->
   discussionsLoop config host org (map VStr post) []
     (logged ("Error fetching discussions for " +:+ r +:+ ": " +:+ message_of e) w2)
   = (inr after, w3) ->
   fst (fetchDiscussions config host org (pre ++ r :: post) w)
   = inr (or_empty (filterByUser config (before ++ after)))).
Proof.
  split; [| split]; intros Hpre Hr Hpost.
  - unfold fetchIssues, fetchIssues_body. rewrite length_around.
    apply (filtered_or_empty config _
             (fun error => "Error fetching issues: " +:+ message_of error) _ w w3).
    exact (loop_skips_failed _ _ pre r post before after e w w1 w2 w3 Hpre Hr Hpost).
  - unfold fetchPullRequests, fetchPullRequests_body. rewrite length_around.
    apply (filtered_or_empty config _
             (fun error => "Error fetching pull requests: " +:+ message_of error) _ w w3).
    exact (loop_skips_failed _ _ pre r post before after e w w1 w2 w3 Hpre Hr Hpost).
  - unfold fetchDiscussions, fetchDiscussions_body. rewrite length_around.
    rewrite try_catch_run. unfold bind at 1. unfold ret at 1.
    replace (List.length (map VStr (pre ++ r :: post)) =? 0)%nat with false
      by (rewrite length_map, length_app; cbn; symmetry; apply Nat.eqb_neq; lia).
    rewrite <- try_catch_run.
    apply (filtered_or_empty config _
             (fun error => "Error fetching discussions: " +:+ message_of error) _ w w3).
    rewrite map_app. cbn [map].
    exact (loop_skips_failed _ _ (map VStr pre) (VStr r) (map VStr post) before after e
             w w1 w2 w3 Hpre Hr Hpost).
Qed.

Lemma failing_repository_is_skipped_witness :
  let config := Sample.only ["a"; "b"; "c"] in
  let host :=
    Sample.host
      (Sample.byUrl
         [(Sample.listUrl "o" "a" "issues",
           Sample.okJson (VArr [Sample.issueJson 1 "ann" "2024-01-01T00:00:00Z"]));
          (Sample.listUrl "o" "c" "issues",
           Sample.okJson (VArr [Sample.issueJson 3 "cy" "2024-03-01T00:00:00Z"]))])
      10 in
  exists items : list GitHubItem,
    fst (fetchIssues config host "o" "open" (["a"] ++ "b" :: ["c"]) (Sample.boot 0))
    = inr items /\
    map item_number items = [VNum (Int 1); VNum (Int 3)] /\
    map item_repository items = [VStr "a"; VStr "c"].
Proof.
  intros config host.
  pose (first := issuesLoop config host "o" "open" ["a"] [] (Sample.boot 0)).
  pose (failed := issuesOfRepo config host "o" "open" "b" (snd first)).
  pose (e := Error "GitHub API request failed: Not Found").
  pose (last := issuesLoop config host "o" "open" ["c"] []
                  (logged ("Error fetching issues from o/b: " +:+ message_of e)
                          (snd failed))).
  destruct (failing_repository_is_skipped config host "o" "open" ["a"] "b" ["c"]
              (or_empty (fst first)) (or_empty (fst last)) e
              (Sample.boot 0) (snd first) (snd failed) (snd last)) as [Hskip _].
  eexists. split.
  - apply Hskip; by_computation.
  - split; by_computation.
Defined.

(** ** User exclusion *)

Lemma filterR_filter {A} (f : A -> result bool) (p : A -> bool) (l : list A) :
  (forall x, In x l -> f x = inr (p x)) ->
  filterR f l = inr (List.filter p l).
Proof.
  induction l as [| x l IH]; intros Hf; [reflexivity |].
  cbn [filterR List.filter]. rewrite (Hf x) by now left. cbn [bindR].
  rewrite IH by (intros y Hy; apply Hf; now right). reflexivity.
Qed.

Lemma filterR_kept {A} (f : A -> result bool) (Q : A -> Prop) :
  (forall x, f x = inr true -> Q x) ->
  forall l out, filterR f l = inr out -> Forall Q out.
Proof.
  intros Hf. induction l as [| x l IH]; intros out H; cbn in H.
  - injection H as <-. constructor.
  - invert_result. subst out. destruct a; [constructor |]; auto.
Qed.

Lemma filterR_Forall {A} (f : A -> result bool) (Q : A -> Prop) :
  forall l out, Forall Q l -> filterR f l = inr out -> Forall Q out.
Proof.
  induction l as [| x l IH]; intros out Hl H; cbn in H.
  - injection H as <-. constructor.
  - invert_result. subst out. inversion Hl; subst.
    destruct a; [constructor |]; auto.
Qed.

Lemma filter_all {A} (p : A -> bool) (l : list A) :
  (forall x, In x l -> p x = true) -> List.filter p l = l.
Proof.
  induction l as [| x l IH]; intros Hp; [reflexivity |].
  cbn. rewrite (Hp x) by now left. f_equal. apply IH. intros y Hy. apply Hp. now right.
Qed.

Lemma login_excluded_nil (item : GitHubItem) : login_excluded [] item = false.
Proof. unfold login_excluded. destruct (user_login (item_user item)); reflexivity. Qed.

(** The verdict of the callback given to [items.filter]. *)
Lemma filterByUser_verdict (names : list string) (item : GitHubItem) (keep : bool) :
  (let? username := username_of item in
   inr (negb (existsb (fun excluded => strict_eq_string username (toLowerCase excluded))
                      names)))
  = inr keep ->
  keep = negb (login_excluded names item).
Proof.
  unfold username_of, login_excluded.
  destruct (user_login (item_user item)) as [| | b | n | login | l | o]; cbn [bindR];
    intros H; try discriminate; injection H as <-; f_equal.
  - induction names as [| name names IH]; [reflexivity |]. cbn. exact IH.
  - induction names as [| name names IH]; [reflexivity |]. cbn. exact IH.
Qed.

Lemma filterByUser_verdict_text (names : list string) (item : GitHubItem) :
  login_is_text item ->
  (let? username := username_of item in
   inr (negb (existsb (fun excluded => strict_eq_string username (toLowerCase excluded))
                      names)))
  = inr (negb (login_excluded names item)).
Proof.
  intros Htext.
  destruct (bindR (username_of item) _) as [e | keep] eqn:H.
  - unfold username_of, login_is_text in *.
    destruct (user_login (item_user item)); cbn in H; try discriminate; contradiction.
  - apply filterByUser_verdict in H. congruence.
Qed.

Lemma filterByUser_filter (config : ProjectConfig) (items : list GitHubItem) :
  Forall login_is_text items ->
  filterByUser config items
  = inr (List.filter (fun item => negb (login_excluded (excludedNames config) item)) items).
Proof.
  intros Htext. unfold filterByUser, excludedNames.
  destruct (excludedUsers config) as [names |]; cbn [default from_option id].
  - destruct names as [| name names]; cbn [List.length Nat.eqb].
    + rewrite filter_all; [reflexivity |]. intros x _. now rewrite login_excluded_nil.
    + apply filterR_filter. intros x Hx. apply filterByUser_verdict_text.
      rewrite List.Forall_forall in Htext. auto.
  - rewrite filter_all; [reflexivity |]. intros x _. now rewrite login_excluded_nil.
Qed.

Lemma filterByUser_sound (config : ProjectConfig) (items out : list GitHubItem) :
  filterByUser config items = inr out ->
  Forall (fun item => login_excluded (excludedNames config) item = false) out.
Proof.
  unfold filterByUser, excludedNames.
  destruct (excludedUsers config) as [names |]; cbn [default from_option id].
  - destruct names as [| name names]; cbn [List.length Nat.eqb].
    + intros _. apply Forall_forall. intros x _. apply login_excluded_nil.
    + apply filterR_kept. intros x Hx. apply filterByUser_verdict in Hx.
      now destruct (login_excluded (name :: names) x).
  - intros _. apply Forall_forall. intros x _. apply login_excluded_nil.
Qed.

Lemma filterByUser_Forall (config : ProjectConfig) (Q : GitHubItem -> Prop)
    (items out : list GitHubItem) :
  Forall Q items -> filterByUser config items = inr out -> Forall Q out.
Proof.
  unfold filterByUser. intros HQ.
  destruct (excludedUsers config) as [names |].
  - destruct (List.length names =? 0)%nat.
    + intros H. injection H as <-. exact HQ.
    + apply filterR_Forall. exact HQ.
  - intros H. injection H as <-. exact HQ.
Qed.

(** ** What the fetchers return *)

Lemma transformGitHubItem_type (payload : value) (type : ItemType) (item : GitHubItem) :
  transformGitHubItem payload type = inr item -> item_type item = type.
Proof. unfold transformGitHubItem. intros H. invert_result. subst item. reflexivity. Qed.

Lemma transformDiscussion_type (repo disc : value) (item : GitHubItem) :
  transformDiscussion repo disc = inr item -> item_type item = discussion.
Proof. unfold transformDiscussion. intros H. invert_result. subst item. reflexivity. Qed.

Section FetcherOutputs.

Variable config : ProjectConfig.
Variable host : Host.

Lemma issuesOfRepo_type (org state repo : string) (w : World) (items : list GitHubItem)
    (w' : World) :
  issuesOfRepo config host org state repo w = (inr items, w') ->
  Forall (fun item => item_type item = issue) items.
Proof.
  unfold issuesOfRepo. intros H. invert_M. invert_result.
  eapply mapR_Forall; [| eassumption].
  intros x y Hxy. cbn beta in Hxy. invert_result. subst y.
  cbn [with_repository item_type]. eapply transformGitHubItem_type. eassumption.
Qed.

Lemma pullsOfRepo_type (org state repo : string) (w : World) (items : list GitHubItem)
    (w' : World) :
  pullsOfRepo config host org state repo w = (inr items, w') ->
  Forall (fun item => item_type item = pr) items.
Proof.
  unfold pullsOfRepo. intros H. invert_M. invert_result.
  eapply mapR_Forall; [| eassumption].
  intros x y Hxy. cbn beta in Hxy. invert_result. subst y.
  cbn [with_repository item_type]. eapply transformGitHubItem_type. eassumption.
Qed.

Lemma discussionsOfRepo_type (org : string) (repo : value) (w : World)
    (items : list GitHubItem) (w' : World) :
  discussionsOfRepo config host org repo w = (inr items, w') ->
  Forall (fun item => item_type item = discussion) items.
Proof.
  unfold discussionsOfRepo. intros H. invert_M.
  destruct (truthy _); invert_M; [| constructor].
  invert_result. eapply mapR_Forall; [| eassumption].
  intros x y Hxy. eapply transformDiscussion_type. eassumption.
Qed.

(** Every list a fetcher returns went through [filterByUser], unless it
    is empty. *)
Variable P : GitHubItem -> Prop.

Lemma fetchIssues_Forall (org state : string) (repos : list string) (w : World) :
  (forall xs out, Forall (fun item => item_type item = issue) xs ->
                  filterByUser config xs = inr out -> Forall P out) ->
  Forall P (or_empty (fst (fetchIssues config host org state repos w))).
Proof.
  intros HP. unfold fetchIssues. rewrite try_catch_run.
  destruct (fetchIssues_body config host org state repos w) as [[e | items] w1] eqn:Hb;
    [constructor |].
  cbn [fst or_empty]. unfold fetchIssues_body in Hb.
  destruct (0 <? List.length repos)%nat.
  - invert_M. eapply HP; [| eassumption].
    eapply forEachRepo_Forall; [| constructor | eassumption].
    intros r w2 items2 w3. apply issuesOfRepo_type.
  - invert_M. destruct (negb (truthy _)); invert_M; [constructor |].
    eapply HP; [| eassumption]. invert_result.
    eapply mapR_Forall; [| eassumption].
    intros x y Hxy. exact (transformGitHubItem_type x issue y Hxy).
Qed.

Lemma fetchPullRequests_Forall (org state : string) (repos : list string) (w : World) :
  (forall xs out, Forall (fun item => item_type item = pr) xs ->
                  filterByUser config xs = inr out -> Forall P out) ->
  Forall P (or_empty (fst (fetchPullRequests config host org state repos w))).
Proof.
  intros HP. unfold fetchPullRequests. rewrite try_catch_run.
  destruct (fetchPullRequests_body config host org state repos w) as [[e | items] w1] eqn:Hb;
    [constructor |].
  cbn [fst or_empty]. unfold fetchPullRequests_body in Hb.
  destruct (0 <? List.length repos)%nat.
  - invert_M. eapply HP; [| eassumption].
    eapply forEachRepo_Forall; [| constructor | eassumption].
    intros r w2 items2 w3. apply pullsOfRepo_type.
  - invert_M. destruct (negb (truthy _)); invert_M; [constructor |].
    eapply HP; [| eassumption]. invert_result.
    eapply mapR_Forall; [| eassumption].
    intros x y Hxy. exact (transformGitHubItem_type x pr y Hxy).
Qed.

Lemma fetchDiscussions_Forall (org : string) (repos : list string) (w : World) :
  (forall xs out, Forall (fun item => item_type item = discussion) xs ->
                  filterByUser config xs = inr out -> Forall P out) ->
  Forall P (or_empty (fst (fetchDiscussions config host org repos w))).
Proof.
  intros HP. unfold fetchDiscussions. rewrite try_catch_run.
  destruct (fetchDiscussions_body config host org repos w) as [[e | items] w1] eqn:Hb;
    [constructor |].
  cbn [fst or_empty]. unfold fetchDiscussions_body in Hb.
  apply bind_inr in Hb. destruct Hb as (reposToFetch & w2 & _ & Hb).
  destruct (List.length reposToFetch =? 0)%nat; invert_M; [constructor |].
  eapply HP; [| eassumption].
  eapply forEachRepo_Forall; [| constructor | eassumption].
  intros r w3 items3 w4. apply discussionsOfRepo_type.
Qed.

End FetcherOutputs.

(** C7. [filterByUser] keeps, in their order, exactly the items whose
    login does not equal a configured excluded user name once both are put
    in lower case (the logins being strings, as the item type says, or
    absent); and no item returned by [fetchIssues], [fetchPullRequests] or
    [fetchDiscussions] has such a login. *)
Theorem excluded_users_are_dropped (config : ProjectConfig) (host : Host) :
  (forall items : list GitHubItem,
     Forall login_is_text items ->
     filterByUser config items
     = inr (List.filter (fun item => negb (login_excluded (excludedNames config) item))
                        items)) /\
  (forall (org state : string) (repos : list string) (w : World),
     Forall (fun item => login_excluded (excludedNames config) item = false)
            (or_empty (fst (fetchIssues config host org state repos w))) /\
     Forall (fun item => login_excluded (excludedNames config) item = false)
            (or_empty (fst (fetchPullRequests config host org state repos w))) /\
     Forall (fun item => login_excluded (excludedNames config) item = false)
            (or_empty (fst (fetchDiscussions config host org repos w)))).
Proof.
  split; [apply filterByUser_filter |].
  intros org state repos w. repeat split.
  - apply fetchIssues_Forall. intros xs out _. apply filterByUser_sound.
  - apply fetchPullRequests_Forall. intros xs out _. apply filterByUser_sound.
  - apply fetchDiscussions_Forall. intros xs out _. apply filterByUser_sound.
Qed.

Lemma excluded_users_are_dropped_witness :
  let config := Sample.only ["r"] in
  let host :=
    Sample.host
      (Sample.always
         (Sample.okJson (VArr [Sample.issueJson 1 "Bot" "2024-01-01T00:00:00Z";
                               Sample.issueJson 2 "ann" "2024-01-02T00:00:00Z"])))
      0 in
  filterByUser config [Sample.item issue 1 "ann" "2024-01-01";
                       Sample.item issue 2 "Bot" "2024-01-02";
                       Sample.item pr 3 "bob" "2024-01-03"]
  = inr [Sample.item issue 1 "ann" "2024-01-01"; Sample.item pr 3 "bob" "2024-01-03"] /\
  map item_number (or_empty (fst (fetchIssues config host "o" "open" ["r"] (Sample.boot 0))))
  = [VNum (Int 2)] /\
  Forall (fun item => login_excluded ["bot"] item = false)
         (or_empty (fst (fetchIssues config host "o" "open" ["r"] (Sample.boot 0)))).
Proof.
  intros config host.
  destruct (excluded_users_are_dropped config host) as [Hfilter Hfetch].
  split; [| split].
  - rewrite Hfilter; [reflexivity |]. repeat constructor.
  - reflexivity.
  - apply (Hfetch "o" "open" ["r"] (Sample.boot 0)).
Defined.

(** ** The sort *)

Section SortFacts.

Context {A : Type} (comparefn : A -> A -> result (option Z)).

Lemma sort_insert_Permutation (x : A) (l out : list A) :
  sort_insert comparefn x l = inr out -> Permutation (x :: l) out.
Proof.
  revert out. induction l as [| y l IH]; intros out H; cbn [sort_insert] in H.
  - injection H as <-. reflexivity.
  - apply bindR_inr in H. destruct H as (order & _ & H).
    destruct (default 0 order <=? 0).
    + injection H as <-. reflexivity.
    + apply bindR_inr in H. destruct H as (rest' & Hrest & H). injection H as <-.
      rewrite perm_swap. constructor. apply IH. exact Hrest.
Qed.

Lemma Array_sort_Permutation (l out : list A) :
  Array_sort comparefn l = inr out -> Permutation l out.
Proof.
  revert out. induction l as [| x l IH]; intros out H; cbn [Array_sort] in H.
  - injection H as <-. reflexivity.
  - apply bindR_inr in H. destruct H as (sorted & Hsorted & H).
    apply sort_insert_Permutation in H. rewrite <- H. constructor. apply IH. exact Hsorted.
Qed.

(** Whatever the comparator, a property of all the elements survives the
    sort. *)
Lemma Array_sort_Forall (Q : A -> Prop) (l out : list A) :
  Forall Q l -> Array_sort comparefn l = inr out -> Forall Q out.
Proof.
  intros HQ H. eapply Permutation_Forall; [apply Array_sort_Permutation; exact H | exact HQ].
Qed.

End SortFacts.

Section Chronology.

Variable host : Host.




End Chronology.

(** ** The aggregator *)

Lemma filter_Forall {A} (Q : A -> Prop) (p : A -> bool) (l : list A) :
  Forall Q l -> Forall Q (List.filter p l).
Proof.
  induction 1 as [| x l Hx Hl IH]; cbn; [constructor |].
  destruct (p x); [constructor |]; assumption.
Qed.

Section Aggregator.

Variable config : ProjectConfig.
Variable host : Host.

Lemma fetchIssues_returns (org state : string) (repos : list string) (w : World) :
  exists items w', fetchIssues config host org state repos w = (inr items, w').
Proof.
  destruct (guarded_total (fetchIssues_body config host org state repos)
              (fun error => "Error fetching issues: " +:+ message_of error) [] w)
    as (a & w' & H & _).
  eauto.
Qed.

Lemma fetchPullRequests_returns (org state : string) (repos : list string) (w : World) :
  exists items w', fetchPullRequests config host org state repos w = (inr items, w').
Proof.
  destruct (guarded_total (fetchPullRequests_body config host org state repos)
              (fun error => "Error fetching pull requests: " +:+ message_of error) [] w)
    as (a & w' & H & _).
  eauto.
Qed.

Lemma fetchDiscussions_returns (org : string) (repos : list string) (w : World) :
  exists items w', fetchDiscussions config host org repos w = (inr items, w').
Proof.
  destruct (guarded_total (fetchDiscussions_body config host org repos)
              (fun error => "Error fetching discussions: " +:+ message_of error) [] w)
    as (a & w' & H & _).
  eauto.
Qed.

(** [collectItems] never throws, and a property that holds of what the
    fetchers it calls return holds of what it returns. *)
Lemma collectItems_Forall (Q : GitHubItem -> Prop) (org : string) (options : FilterOptions)
    (w : World) :
  (requested options issue = true ->
   forall w1, Forall Q (or_empty (fst (fetchIssues config host org
                                         (default "open" (opt_state options))
                                         (allowedRepositories config) w1)))) ->
  (requested options pr = true ->
   forall w1, Forall Q (or_empty (fst (fetchPullRequests config host org
                                         (default "open" (opt_state options))
                                         (allowedRepositories config) w1)))) ->
  (requested options discussion = true -> enableDiscussions config = true ->
   forall w1, Forall Q (or_empty (fst (fetchDiscussions config host org
                                         (allowedRepositories config) w1)))) ->
  exists pre w',
    collectItems config host org options w = (inr pre, w') /\ Forall Q pre.
Proof.
  intros Hissues Hprs Hdiscs.
  assert (Hfinish : forall (items : list GitHubItem) (w1 : World),
             Forall Q items ->
             exists pre w',
               ret (match opt_repository options with
                    | Some r =>
                        if negb (String.eqb r "") && negb (String.eqb r "all")
                        then List.filter
                               (fun item => strict_eq_string (item_repository item) r) items
                        else items
                    | None => items
                    end) w1 = (inr pre, w') /\ Forall Q pre).
  { intros items w1 HQ. eexists _, _. split; [reflexivity |].
    destruct (opt_repository options) as [r |]; [| exact HQ].
    destruct (negb _ && negb _); [apply filter_Forall |]; exact HQ. }
  unfold collectItems, requested in *. cbv zeta.
  destruct (fetchIssues_returns org (default "open" (opt_state options))
              (allowedRepositories config) w) as (issues & w1 & Hi).
  pose proof (fun H => Hissues H w) as Qi. rewrite Hi in Qi. cbn [fst or_empty] in Qi.
  destruct (default FAll (opt_type options)); unfold bind at 1.
  all: try (unfold bind at 1; rewrite Hi).
  all: unfold ret at 1; cbn [app].
  all: unfold bind at 1.
  - (* issue *)
    unfold ret at 1. unfold bind at 1. cbn [andb]. unfold ret at 1. apply Hfinish. auto.
  - (* pr *)
    destruct (fetchPullRequests_returns org (default "open" (opt_state options))
                (allowedRepositories config) w) as (prs & w2 & Hp).
    pose proof (fun H => Hprs H w) as Qp. rewrite Hp in Qp. cbn [fst or_empty] in Qp.
    unfold bind at 1. rewrite Hp. unfold ret at 1. cbn [app].
    unfold bind at 1. cbn [andb]. unfold ret at 1. apply Hfinish. auto.
  - (* discussion *)
    unfold ret at 1. unfold bind at 1. cbn [andb].
    destruct (enableDiscussions config) eqn:Hen.
    + destruct (fetchDiscussions_returns org (allowedRepositories config) w)
        as (discs & w2 & Hd).
      pose proof (fun H => Hdiscs H eq_refl w) as Qd. rewrite Hd in Qd.
      cbn [fst or_empty] in Qd.
      unfold bind at 1. rewrite Hd. unfold ret at 1. cbn [app]. apply Hfinish. auto.
    + unfold ret at 1. apply Hfinish. constructor.
  - (* all *)
    destruct (fetchPullRequests_returns org (default "open" (opt_state options))
                (allowedRepositories config) w1) as (prs & w2 & Hp).
    pose proof (fun H => Hprs H w1) as Qp. rewrite Hp in Qp. cbn [fst or_empty] in Qp.
    unfold bind at 1. rewrite Hp. unfold ret at 1.
    unfold bind at 1. cbn [andb].
    destruct (enableDiscussions config) eqn:Hen.
    + destruct (fetchDiscussions_returns org (allowedRepositories config) w2)
        as (discs & w3 & Hd).
      pose proof (fun H => Hdiscs H eq_refl w2) as Qd. rewrite Hd in Qd.
      cbn [fst or_empty] in Qd.
      unfold bind at 1. rewrite Hd. unfold ret at 1. apply Hfinish.
      rewrite !Forall_app. auto.
    + unfold ret at 1. apply Hfinish. rewrite Forall_app. auto.
Qed.

End Aggregator.

(** [fetchAllItems] is not guarded: when [new Date] throws on an
    [updated_at] it was handed unchecked, the exception escapes. *)
Lemma fetchAllItems_raises_on_unconvertible_date :
  let config := Sample.only ["r"] in
  let host :=
    Sample.host
      (Sample.always
         (Sample.okJson
            (VArr [Sample.issueJson 1 "ann" "2024-01-01";
                   Sample.withUpdatedAt Sample.noPrimitive
                     (Sample.issueJson 2 "bob" "2024-02-01")])))
      0 in
  fst (collectItems config host "o" Sample.issuesOnly (Sample.boot 0))
  = inr [Sample.item issue 1 "ann" "2024-01-01";
         with_updated_at (Sample.item issue 2 "bob" "2024-02-01") Sample.noPrimitive] /\
  fst (fetchAllItems config host "o" Sample.issuesOnly (Sample.boot 0))
  = inl (TypeError "Cannot convert object to primitive value").
Proof. vm_compute. split; reflexivity. Qed.

(** C2. Whatever [fetchAllItems] returns (it has no [try] of its own, and
    throws when the comparator of its sort does): with [type: 'issue']
    every returned item has the type [issue], with [type: 'pr'] the type
    [pr], with [type: 'discussion'] the type [discussion]; and when
    [enableDiscussions] is off no returned item has the type [discussion],
    whatever the type filter. *)
Theorem fetchAllItems_respects_type_filter (config : ProjectConfig) (host : Host)
    (org : string) (options : FilterOptions) (w : World)
    (items : list GitHubItem) (w' : World) :
  fetchAllItems config host org options w = (inr items, w') ->
  (opt_type options = Some FIssue ->
   Forall (fun item => item_type item = issue) items) /\
  (opt_type options = Some FPr ->
   Forall (fun item => item_type item = pr) items) /\
  (opt_type options = Some FDiscussion ->
   Forall (fun item => item_type item = discussion) items) /\
  (enableDiscussions config = false ->
   Forall (fun item => item_type item <> discussion) items).
Proof.
  intros Hrun.
  pose (Q := fun item : GitHubItem =>
               (opt_type options = Some FIssue -> item_type item = issue) /\
               (opt_type options = Some FPr -> item_type item = pr) /\
               (opt_type options = Some FDiscussion -> item_type item = discussion) /\
               (enableDiscussions config = false -> item_type item <> discussion)).
  assert (HQ : Forall Q items).
  { destruct (collectItems_Forall config host Q org options w) as (pre & w1 & Hpre & HQ).
    - intros Hreq w2. apply fetchIssues_Forall. intros xs out Hxs Hout.
      apply (filterByUser_Forall config _ xs out Hxs) in Hout.
      eapply List.Forall_impl; [| exact Hout]. intros item Hitem. unfold Q, requested in *.
      rewrite Hitem.
      repeat split; try congruence; intros Ht; rewrite Ht in Hreq; discriminate.
    - intros Hreq w2. apply fetchPullRequests_Forall. intros xs out Hxs Hout.
      apply (filterByUser_Forall config _ xs out Hxs) in Hout.
      eapply List.Forall_impl; [| exact Hout]. intros item Hitem. unfold Q, requested in *.
      rewrite Hitem.
      repeat split; try congruence; intros Ht; rewrite Ht in Hreq; discriminate.
    - intros Hreq Hon w2. apply fetchDiscussions_Forall. intros xs out Hxs Hout.
      apply (filterByUser_Forall config _ xs out Hxs) in Hout.
      eapply List.Forall_impl; [| exact Hout]. intros item Hitem. unfold Q, requested in *.
      rewrite Hitem.
      repeat split; try congruence; intros Ht; rewrite Ht in Hreq; discriminate.
    - unfold fetchAllItems, bind in Hrun. rewrite Hpre in Hrun.
      apply lift_inr in Hrun. destruct Hrun as [Hsort _].
      exact (Array_sort_Forall (byUpdatedDesc host) Q pre items HQ Hsort). }
  unfold Q in HQ.
  repeat split; intros Ht; (eapply List.Forall_impl; [| exact HQ]);
    intros item Hitem; apply Hitem; exact Ht.
Qed.

Lemma fetchAllItems_respects_type_filter_witness :
  let config := Sample.only ["r"] in
  let host :=
    Sample.host
      (Sample.always (Sample.okJson (VArr [Sample.issueJson 1 "ann" "2024-01-01"])))
      0 in
  let run := fetchAllItems config host "o" Sample.issuesOnly (Sample.boot 0) in
  let found := [Sample.item issue 1 "ann" "2024-01-01"] in
  fst run = inr found /\
  Forall (fun item => item_type item = issue) found /\
  Forall (fun item => item_type item <> discussion) found.
Proof.
  intros config host run found.
  destruct (fetchAllItems_respects_type_filter config host "o" Sample.issuesOnly
              (Sample.boot 0) found (snd run)) as (Hissue & _ & _ & Hoff);
    [by_computation |].
  split; [by_computation |].
  split; [apply Hissue | apply Hoff]; reflexivity.
Defined.



